(** * amadeus-mcp: request orchestration and degradation layer

    A shallow embedding of [src/dist/index.js] (token manager, request
    gateway, hotel discovery, the three orchestrated operations and their
    mock substitutes), followed by the properties proved about it.

    Conventions of the embedding.
    - An [async function] is a computation in the monad [Async]: it threads
      the module state and the log of issued requests, and either returns
      a value or throws an [Error].  [try { } catch { }] is [try_catch].
    - Everything the program reads from outside (the clock, the random
      source, the answers of the remote service, the engine's fallback date
      parser, the two credentials) is a field of the environment [Env].
    - JavaScript strings are [string]s.  Case conversion is that of
      ASCII text, on the letters [A] to [Z]; the characterisation of the
      name filter is stated for ASCII names and filter texts.
    - JavaScript numbers that come from the caller or from a listing
      (ratings, prices, coordinates, the numeric tool arguments) are
      binary64 [float]s, printed by [Number_toString]; instants, status
      codes and counters, which are integral and far below 2^53, are
      [Z].
    - Upstream JSON bodies are read at the types of the HTTP contract; a
      field the program tests for presence before use is an [option], and
      the body [null], on which a property read throws, is a value of its
      own. *)

From Stdlib Require Import ZArith String Ascii List Bool Lia Floats.
From Stdlib Require Import DecimalString.
From Stdlib Require DecimalZ DecimalPos.
Import ListNotations.
Set Warnings "-inexact-float".
Local Open Scope string_scope.
Local Open Scope Z_scope.

(** ** The JavaScript built-ins the program calls *)

Module JS.

Definition is_upper (c : ascii) : bool :=
  let n := nat_of_ascii c in (Nat.leb 65 n && Nat.leb n 90)%bool.

Definition is_lower (c : ascii) : bool :=
  let n := nat_of_ascii c in (Nat.leb 97 n && Nat.leb n 122)%bool.

Definition is_digit (c : ascii) : bool :=
  let n := nat_of_ascii c in (Nat.leb 48 n && Nat.leb n 57)%bool.

Definition lower_char (c : ascii) : ascii :=
  if is_upper c then ascii_of_nat (nat_of_ascii c + 32) else c.

(** [String.prototype.toLowerCase] on ASCII text: the letters [A] to [Z]
    are replaced, every other character is kept. *)
Fixpoint String_toLowerCase (s : string) : string :=
  match s with
  | EmptyString => EmptyString
  | String c r => String (lower_char c) (String_toLowerCase r)
  end.

(** [String.prototype.includes]. *)
Fixpoint String_includes (s sub : string) : bool :=
  if prefix sub s then true
  else match s with
       | EmptyString => false
       | String _ r => String_includes r sub
       end.

(** [Array.prototype.join] on an array of strings. *)
Fixpoint Array_join (sep : string) (l : list string) : string :=
  match l with
  | [] => EmptyString
  | [x] => x
  | x :: r => x ++ sep ++ Array_join sep r
  end.

(** Decimal rendering of an integer ([Number.prototype.toString] on an
    integral number below 10^21). *)
Definition Z_toString (z : Z) : string := NilZero.string_of_int (Z.to_int z).

Fixpoint repeat_char (c : ascii) (n : nat) : string :=
  match n with
  | O => EmptyString
  | S k => String c (repeat_char c k)
  end.

Definition pad_left (width : nat) (s : string) : string :=
  repeat_char "0" (width - String.length s) ++ s.

(** *** [Number.prototype.toString] on a binary64 number

    The shortest decimal that reads back as the same number, formatted as
    ECMA-262 (Number::toString, radix 10) prescribes.  All comparisons are
    exact, on integers: a decimal [d * 10^p] against a dyadic [N * 2^E]. *)

Definition scaled_compare (d p N E : Z) : comparison :=
  Z.compare (d * 10 ^ Z.max p 0 * 2 ^ Z.max (- E) 0)
            (N * 2 ^ Z.max E 0 * 10 ^ Z.max (- p) 0).

Definition scaled_floor (p N E : Z) : Z :=
  (N * 2 ^ Z.max E 0 * 10 ^ Z.max (- p) 0) / (10 ^ Z.max p 0 * 2 ^ Z.max (- E) 0).

Fixpoint least_exponent (fuel : nat) (n N E : Z) : Z :=
  match fuel with
  | O => n
  | S f => match scaled_compare 1 n N E with
           | Gt => n
           | _ => least_exponent f (n + 1) N E
           end
  end.

(** The [n] with [10^(n-1) <= N * 2^E < 10^n], searched upwards from an
    under-estimate obtained from the binary logarithm. *)
Definition decimal_exponent (N E : Z) : Z :=
  least_exponent 8 ((Z.log2 N + E) * 1233 / 4096 - 1) N E.

Fixpoint strip_zeros_rev (l : list ascii) : list ascii :=
  match l with
  | "0"%char :: (_ :: _) as r => strip_zeros_rev r
  | _ => l
  end.

Definition strip_trailing_zeros (s : string) : string :=
  string_of_list_ascii (rev (strip_zeros_rev (rev (list_ascii_of_string s)))).

(** The number is [m * 2^e] with [m] its 53-bit significand.  In units of
    [2^(e-2)] it is [4m]; the reals that round to it lie between the
    midpoints to its two neighbours, the ends included when [m] is even. *)
Definition in_rounding_interval (m e c p : Z) : bool :=
  let N := 4 * m in
  let lo := if (m =? 2 ^ 52) && (-1074 <? e) then N - 1 else N - 2 in
  let hi := N + 2 in
  (match scaled_compare c p lo (e - 2) with
   | Gt => true
   | Eq => Z.even m
   | Lt => false
   end)
  && (match scaled_compare c p hi (e - 2) with
      | Lt => true
      | Eq => Z.even m
      | Gt => false
      end).

(** The decimal [c * 10^p] nearest to the number among those that round
    to it, if there is one at this position [p]. *)
Definition candidate (m e p : Z) : option Z :=
  let N := 4 * m in
  let c1 := scaled_floor p N (e - 2) in
  let c2 := c1 + 1 in
  match in_rounding_interval m e c1 p, in_rounding_interval m e c2 p with
  | true, true =>
      match scaled_compare (c1 + c2) p (2 * N) (e - 2) with
      | Gt => Some c1
      | Lt => Some c2
      | Eq => Some (if Z.even c1 then c1 else c2)
      end
  | true, false => Some c1
  | false, true => Some c2
  | false, false => None
  end.

Fixpoint shortest_from (fuel : nat) (m e k n0 : Z) : Z * Z :=
  match fuel with
  | O => (scaled_floor (n0 - k) (4 * m) (e - 2), n0 - k)
  | S f => match candidate m e (n0 - k) with
           | Some c => (c, n0 - k)
           | None => shortest_from f m e (k + 1) n0
           end
  end.

(** Digits [ds] and exponent [n]: the number prints as [0.ds * 10^n]. *)
Definition shortest_digits (m e : Z) : string * Z :=
  let n0 := decimal_exponent (4 * m) (e - 2) in
  let '(c, p) := shortest_from 17 m e 1 n0 in
  let ds := Z_toString c in
  (strip_trailing_zeros ds, p + Z.of_nat (String.length ds)).

Definition format_decimal (ds : string) (n : Z) : string :=
  let k := Z.of_nat (String.length ds) in
  if (k <=? n) && (n <=? 21) then ds ++ repeat_char "0" (Z.to_nat (n - k))
  else if (0 <? n) && (n <=? 21) then
    substring 0 (Z.to_nat n) ds ++ "." ++ substring (Z.to_nat n) (Z.to_nat (k - n)) ds
  else if (-6 <? n) && (n <=? 0) then
    "0." ++ repeat_char "0" (Z.to_nat (- n)) ++ ds
  else
    let ex := n - 1 in
    let sgn := if ex <? 0 then "-" else "+" in
    let mant := if k =? 1 then ds
                else substring 0 1 ds ++ "." ++ substring 1 (Z.to_nat (k - 1)) ds in
    mant ++ "e" ++ sgn ++ Z_toString (Z.abs ex).

Definition Number_toString (x : float) : string :=
  match Prim2SF x with
  | S754_nan => "NaN"
  | S754_zero _ => "0"
  | S754_infinity false => "Infinity"
  | S754_infinity true => "-Infinity"
  | S754_finite s m e =>
      let '(ds, n) := shortest_digits (Zpos m) e in
      (if s then "-" else EmptyString) ++ format_decimal ds n
  end.

(** [Math.floor]. *)
Definition Math_floor (x : float) : float :=
  match Prim2SF x with
  | S754_finite s m e =>
      if 0 <=? e then x
      else
        let q := Z.shiftr (Zpos m) (- e) in
        let exact := Z.shiftl q (- e) =? Zpos m in
        let n := if s then (if exact then q else q + 1) else q in
        let f := PrimFloat.of_uint63 (Uint63Axioms.of_Z n) in
        if s then PrimFloat.opp f else f
  | _ => x
  end.

(** JavaScript truthiness of an optional string and of an optional number
    ([undefined], the empty string, zeros and NaN are falsy). *)
Definition truthy_string (s : option string) : bool :=
  match s with
  | Some (String _ _) => true
  | _ => false
  end.

Definition truthy_number (x : option float) : bool :=
  match x with
  | Some v => negb (PrimFloat.eqb v 0%float) && negb (PrimFloat.is_nan v)
  | None => false
  end.

(** *** Dates

    A time value is a number of milliseconds since the epoch, or NaN
    ([None]).  [TimeClip] is what [new Date(number)] applies. *)

Definition msPerDay : Z := 86400000.

Definition maxTime : Z := 8640000000000000.

Definition TimeClip (t : Z) : option Z :=
  if Z.abs t <=? maxTime then Some t else None.

Definition civil_from_days (days : Z) : Z * Z * Z :=
  let z := days + 719468 in
  let era := z / 146097 in
  let doe := z - era * 146097 in
  let yoe := (doe - doe / 1460 + doe / 36524 - doe / 146096) / 365 in
  let y := yoe + era * 400 in
  let doy := doe - (365 * yoe + yoe / 4 - yoe / 100) in
  let mp := (5 * doy + 2) / 153 in
  let d := doy - (153 * mp + 2) / 5 + 1 in
  let m := if mp <? 10 then mp + 3 else mp - 9 in
  (if m <=? 2 then y + 1 else y, m, d).

Definition days_from_civil (y m d : Z) : Z :=
  let y' := if m <=? 2 then y - 1 else y in
  let era := y' / 400 in
  let yoe := y' - era * 400 in
  let doy := (153 * (if 2 <? m then m - 3 else m + 9) + 2) / 5 + d - 1 in
  let doe := yoe * 365 + yoe / 4 - yoe / 100 + doy in
  era * 146097 + doe - 719468.

Definition pad (width : nat) (z : Z) : string := pad_left width (Z_toString z).

Definition year_string (y : Z) : string :=
  if (0 <=? y) && (y <=? 9999) then pad 4 y
  else (if y <? 0 then "-" else "+") ++ pad 6 (Z.abs y).

(** [Date.prototype.toISOString] on a valid time value. *)
Definition Date_toISOString (t : Z) : string :=
  let '(y, m, d) := civil_from_days (t / msPerDay) in
  let r := t mod msPerDay in
  year_string y ++ "-" ++ pad 2 m ++ "-" ++ pad 2 d ++ "T"
  ++ pad 2 (r / 3600000) ++ ":" ++ pad 2 (r / 60000 mod 60) ++ ":"
  ++ pad 2 (r / 1000 mod 60) ++ "." ++ pad 3 (r mod 1000) ++ "Z".

Definition digit_value (c : ascii) : option Z :=
  if is_digit c then Some (Z.of_nat (nat_of_ascii c) - 48) else None.

Fixpoint digits_value (acc : Z) (l : list ascii) : option Z :=
  match l with
  | [] => Some acc
  | c :: r => match digit_value c with
              | Some v => digits_value (acc * 10 + v) r
              | None => None
              end
  end.

Definition is_leap (y : Z) : bool :=
  ((y mod 4 =? 0) && negb (y mod 100 =? 0)) || (y mod 400 =? 0).

Definition days_in_month (y m : Z) : Z :=
  if m =? 2 then (if is_leap y then 29 else 28)
  else if (m =? 4) || (m =? 6) || (m =? 9) || (m =? 11) then 30 else 31.

(** The date-only form [YYYY-MM-DD] of the ECMA-262 date-time string
    format, read as UTC midnight.  It is the form the tool schema asks
    for; every other string is left to the engine's fallback parser. *)
Definition parse_iso_date (s : string) : option Z :=
  match list_ascii_of_string s with
  | [y1; y2; y3; y4; "-"%char; m1; m2; "-"%char; d1; d2] =>
      match digits_value 0 [y1; y2; y3; y4],
            digits_value 0 [m1; m2],
            digits_value 0 [d1; d2] with
      | Some y, Some m, Some d =>
          if (1 <=? m) && (m <=? 12) && (1 <=? d) && (d <=? days_in_month y m)
          then Some (days_from_civil y m d * msPerDay)
          else None
      | _, _, _ => None
      end
  | _ => None
  end.

(** *** The pattern [/OFF-([A-Z0-9-]+)/i]

    [String.prototype.match] searches the leftmost position where the
    literal [OFF-] (in either case) is followed by at least one character
    of the class; the group is greedy, so it takes the whole run. *)

Definition is_token_char (c : ascii) : bool :=
  is_upper c || is_lower c || is_digit c || Ascii.eqb c "-".

Fixpoint token_run (s : string) : string :=
  match s with
  | String c r => if is_token_char c then String c (token_run r) else EmptyString
  | EmptyString => EmptyString
  end.

Definition match_OFF_here (s : string) : option string :=
  match s with
  | String o (String f1 (String f2 (String d r))) =>
      if Ascii.eqb (lower_char o) "o" && Ascii.eqb (lower_char f1) "f"
         && Ascii.eqb (lower_char f2) "f" && Ascii.eqb d "-"
      then match token_run r with
           | EmptyString => None
           | t => Some t
           end
      else None
  | _ => None
  end.

(** The first capture group of [s.match(/OFF-([A-Z0-9-]+)/i)], or [None]
    when the pattern does not match. *)
Fixpoint match_OFF (s : string) : option string :=
  match match_OFF_here s with
  | Some t => Some t
  | None => match s with
            | String _ r => match_OFF r
            | EmptyString => None
            end
  end.

End JS.

Import JS.

(** ** Data model *)

Module Address.
Record t := mk
  { lines : list string;
    cityName : string;
    countryCode : string;
    postalCode : option string }.
End Address.

Module GeoCode.
Record t := mk { latitude : float; longitude : float }.
End GeoCode.

Module Contact.
Record t := mk { phone : string; email : string }.
End Contact.

(** A hotel as the listing endpoint returns it.  [name], [hotelId] and
    [rating] are the fields the program guards with [&&] and [||]. *)
Module Hotel.
Record t := mk
  { name : option string;
    hotelId : option string;
    rating : option float;
    address : option Address.t;
    geoCode : option GeoCode.t;
    amenities : list string;
    contact : option Contact.t }.
End Hotel.

Module TypeEstimated.
Record t := mk { category : string; beds : Z; bedType : string }.
End TypeEstimated.

Module Room.
Record t := mk
  { type : string;
    typeEstimated : TypeEstimated.t;
    description : string (* description.text *) }.
End Room.

Module Tax.
Record t := mk { amount : string; currency : string; included : bool }.
End Tax.

Module Price.
Record t := mk
  { currency : string;
    base : string;
    total : string;
    taxes : list Tax.t }.
End Price.

Module Cancellation.
Record t := mk
  { deadline : string;
    amount : string;
    type : string;
    description : option string (* description.text *) }.
End Cancellation.

Module CheckInOut.
Record t := mk { checkIn : string; checkOut : string }.
End CheckInOut.

Module Policies.
Record t := mk
  { cancellations : list Cancellation.t;
    checkInOut : CheckInOut.t }.
End Policies.

Module Offer.
Record t := mk
  { id : string;
    checkInDate : string;
    checkOutDate : string;
    room : Room.t;
    price : Price.t;
    boardType : string;
    policies : Policies.t }.
End Offer.

(** One element of a search result: a hotel and its offers. *)
Module HotelOffers.
Record t := mk
  { hotel : Hotel.t;
    available : bool;
    offers : list Offer.t }.
End HotelOffers.

(** The detail record: in JavaScript the offer's fields sit beside
    [hotel] in one object; here they are grouped as [offer]. *)
Module OfferDetail.
Record t := mk { hotel : Hotel.t; offer : Offer.t }.
End OfferDetail.

Module GuestName.
Record t := mk { title : string; firstName : string; lastName : string }.
End GuestName.

Module Guest.
Record t := mk { name : GuestName.t; contact : Contact.t }.
End Guest.

Module Card.
Record t := mk { vendorCode : string; cardNumber : string; expiryDate : string }.
End Card.

Module Payment.
Record t := mk { method : string; card : option Card.t }.
End Payment.

Module AssociatedRecord.
Record t := mk { reference : string; originSystemCode : string }.
End AssociatedRecord.

Module BookingConfirmation.
Record t := mk
  { id : string;
    providerConfirmationId : string;
    associatedRecords : list AssociatedRecord.t;
    guests : list Guest.t;
    offerId : string }.
End BookingConfirmation.

(** The body posted to the booking endpoint, [{ data: { ... } }]. *)
Module BookingBody.
Record t := mk
  { offerId : string;
    guests : list Guest.t;
    payments : list Payment.t }.
End BookingBody.

(** Validated tool arguments.  [radius], [ratings], [adults] and
    [roomQuantity] are numbers the program prints with [toString]. *)
Module HotelListParams.
Record t := mk
  { cityCode : string;
    radius : option float;
    radiusUnit : option string;
    amenities : option (list string);
    ratings : option (list float) }.
End HotelListParams.

Module HotelSearchParams.
Record t := mk
  { cityCode : string;
    checkInDate : string;
    checkOutDate : string;
    adults : float;
    roomQuantity : float;
    priceRange : option string;
    currency : option string;
    boardType : option string;
    paymentPolicy : option string;
    hotelName : option string }.
End HotelSearchParams.

Module HotelOfferParams.
Record t := mk { offerId : string }.
End HotelOfferParams.

Module HotelBookingParams.
Record t := mk
  { offerId : string;
    guests : list Guest.t;
    payments : list Payment.t }.
End HotelBookingParams.

(** A parsed JSON body, at the shapes of the HTTP contract.  The mock
    functions build values of the same type as the real answers.
    [NullJson] is the body [null]; [OtherJson] is any other value that
    has none of the properties the program reads. *)
Inductive Json :=
| NullJson
| TokenJson (access_token : option string) (expires_in : option Z)
| HotelListJson (data : option (list Hotel.t))
| HotelOffersJson (data : list HotelOffers.t)
| OfferDetailJson (data : OfferDetail.t)
| BookingJson (data : BookingConfirmation.t)
| OtherJson (text : string).

(** Property reads on a parsed body other than [null]; a property that
    is not there reads [undefined]. *)
Definition access_token (j : Json) : option string :=
  match j with
  | TokenJson a _ => a
  | _ => None
  end.

Definition expires_in (j : Json) : option Z :=
  match j with
  | TokenJson _ e => e
  | _ => None
  end.

Definition data_hotels (j : Json) : option (list Hotel.t) :=
  match j with
  | HotelListJson d => d
  | _ => None
  end.

Module Response.
Record t := mk
  { status : Z;
    statusText : string;
    text : string;          (* the raw body, [response.text()] *)
    json : option Json      (* [response.json()]; [None] when it rejects *) }.
Definition ok (r : t) : bool := (200 <=? status r) && (status r <=? 299).
End Response.

Inductive RequestBody :=
| FormBody (params : list (string * string))
| JsonBody (data : BookingBody.t).

(** One call of [fetch].  The query is kept as the [URLSearchParams]
    list and the body as the value handed to [JSON.stringify]. *)
Module Request.
Record t := mk
  { url : string;
    query : option (list (string * string));
    method : string;
    headers : list (string * string);
    body : option RequestBody }.
End Request.

Inductive FetchResult :=
| Rejected (reason : string)
| Resolved (response : Response.t).

(** The exceptions the program can raise, one constructor per origin. *)
Inductive Error :=
| FetchError (reason : string)                          (* [fetch] rejected *)
| JsonSyntaxError                                       (* [response.json()] rejected *)
| AccessTokenError (status : Z) (statusText : string)   (* getAccessToken, [!response.ok] *)
| ApiError (status : Z) (statusText errorText : string) (* makeAmadeusRequest, [!response.ok] *)
| NoHotelsFound (cityCode : string)                     (* hotelSearchImplementation *)
| NoValidHotelIds                                       (* hotelSearchImplementation *)
| RangeError_InvalidTime                                (* [toISOString] of an invalid date *)
| TypeError_null (property : string).                   (* a property read on [null] *)

(** What the process is given from outside. *)
Record Env := mkEnv
  { AMADEUS_API_KEY : string;
    AMADEUS_API_SECRET : string;
    Date_now : nat -> Z;               (* the n-th reading of the clock *)
    Math_random : nat -> float;        (* the n-th draw *)
    Date_parse_fallback : string -> option Z;
    fetch : list Request.t -> Request.t -> FetchResult
      (* the answer to a request, given the requests issued before it *) }.

(** Module-level state ([accessToken], [tokenExpiry]) together with the
    bookkeeping of the effects: how often the clock and the random source
    were read, and the requests issued so far, oldest first.
    [tokenExpiry] is a number; [None] stands for NaN. *)
Record World := mkWorld
  { accessToken : option string;
    tokenExpiry : option Z;
    clock : nat;
    draws : nat;
    network : list Request.t }.

Definition initial : World :=
  {| accessToken := None; tokenExpiry := Some 0; clock := 0%nat; draws := 0%nat;
     network := [] |}.

(** The four ways the program changes the world. *)
Definition tick (w : World) : World :=
  {| accessToken := accessToken w; tokenExpiry := tokenExpiry w;
     clock := S (clock w); draws := draws w; network := network w |}.

Definition drawn (w : World) : World :=
  {| accessToken := accessToken w; tokenExpiry := tokenExpiry w;
     clock := clock w; draws := S (draws w); network := network w |}.

Definition logged (r : Request.t) (w : World) : World :=
  {| accessToken := accessToken w; tokenExpiry := tokenExpiry w;
     clock := clock w; draws := draws w; network := (network w ++ [r])%list |}.

Definition with_token (tok : option string) (expiry : option Z) (w : World) : World :=
  {| accessToken := tok; tokenExpiry := expiry;
     clock := clock w; draws := draws w; network := network w |}.

(** ** The monad of asynchronous computations *)

Inductive Outcome (A : Type) :=
| Returned (a : A)
| Thrown (e : Error).

Arguments Returned {A} a.
Arguments Thrown {A} e.

Definition Async (A : Type) : Type := World -> Outcome A * World.

Definition ret {A} (a : A) : Async A := fun w => (Returned a, w).

Definition throw {A} (e : Error) : Async A := fun w => (Thrown e, w).

Definition bind {A B} (m : Async A) (k : A -> Async B) : Async B :=
  fun w => match m w with
           | (Returned a, w') => k a w'
           | (Thrown e, w') => (Thrown e, w')
           end.

Definition try_catch {A} (m : Async A) (handler : Error -> Async A) : Async A :=
  fun w => match m w with
           | (Returned a, w') => (Returned a, w')
           | (Thrown e, w') => handler e w'
           end.

Notation "x <- m ;; k" := (bind m (fun x => k))
  (at level 61, m at next level, right associativity).

(** [Array.prototype.map] with a callback that has effects. *)
Fixpoint Array_map {A B} (f : A -> Async B) (l : list A) : Async (list B) :=
  match l with
  | [] => ret []
  | x :: r => y <- f x ;; ys <- Array_map f r ;; ret (y :: ys)
  end.

(** ** The program *)

Section Program.

Variable E : Env.

(** *** Effects *)

(** [Date.now()]. *)
Definition Date_now_ : Async Z :=
  fun w => (Returned (Date_now E (clock w)), tick w).

(** [Math.random()]. *)
Definition Math_random_ : Async float :=
  fun w => (Returned (Math_random E (draws w)), drawn w).

(** [await fetch(url, options)]: the request is logged, and the promise
    either rejects or resolves to a response. *)
Definition fetch_ (r : Request.t) : Async Response.t :=
  fun w =>
    match fetch E (network w) r with
    | Rejected reason => (Thrown (FetchError reason), logged r w)
    | Resolved response => (Returned response, logged r w)
    end.

(** [await response.json()]. *)
Definition json_ (r : Response.t) : Async Json :=
  match Response.json r with
  | Some j => ret j
  | None => throw JsonSyntaxError
  end.

(** A property read [body.name]: on [null] it throws a TypeError; on any
    other value it gives what [read] finds. *)
Definition is_null (body : Json) : bool :=
  match body with
  | NullJson => true
  | _ => false
  end.

Definition property {A} (name : string) (read : Json -> A) (body : Json) : Async A :=
  if is_null body then throw (TypeError_null name) else ret (read body).

(** The assignments [accessToken = ...; tokenExpiry = ...]. *)
Definition set_token (tok : option string) (expiry : option Z) : Async unit :=
  fun w => (Returned tt, with_token tok expiry w).

Definition get_world : Async World := fun w => (Returned w, w).

(** [Date.parse]: the date-only ISO form is fixed by the language; other
    strings go to the engine's fallback. *)
Definition Date_parse (s : string) : option Z :=
  match parse_iso_date s with
  | Some t => Some t
  | None => Date_parse_fallback E s
  end.

(** [new Date(string)], as a time value. *)
Definition Date_of_string (s : string) : option Z :=
  match Date_parse s with
  | Some t => TimeClip t
  | None => None
  end.

(** [new Date(new Date(checkInDate).getTime() - 86400000 * 3).toISOString()]:
    [toISOString] throws a RangeError on an invalid date. *)
Definition cancellationDeadline (checkInDate : string) : Async string :=
  match Date_of_string checkInDate with
  | Some t =>
      match TimeClip (t - 86400000 * 3) with
      | Some t' => ret (Date_toISOString t')
      | None => throw RangeError_InvalidTime
      end
  | None => throw RangeError_InvalidTime
  end.

(** *** Authentication (lines 127-165) *)

Definition token_url : string :=
  "https://test.api.amadeus.com/v1/security/oauth2/token".

Definition token_request : Request.t :=
  {| Request.url := token_url;
     Request.query := None;
     Request.method := "POST";
     Request.headers := [("Content-Type", "application/x-www-form-urlencoded")];
     Request.body :=
       Some (FormBody [("grant_type", "client_credentials");
                       ("client_id", AMADEUS_API_KEY E);
                       ("client_secret", AMADEUS_API_SECRET E)]) |}.

(** [tokenExpiry > now], false when [tokenExpiry] is NaN. *)
Definition expiry_after (expiry : option Z) (now : Z) : bool :=
  match expiry with
  | Some e => now <? e
  | None => false
  end.

(** [now + (data.expires_in * 1000) - 60000]. *)
Definition new_expiry (now : Z) (ttl : option Z) : option Z :=
  match ttl with
  | Some s => Some (now + s * 1000 - 60000)
  | None => None
  end.

Definition getAccessToken : Async (option string) :=
  now <- Date_now_ ;;
  w <- get_world ;;
  if truthy_string (accessToken w) && expiry_after (tokenExpiry w) now
  then ret (accessToken w)
  else
    try_catch
      (response <- fetch_ token_request ;;
       if negb (Response.ok response)
       then throw (AccessTokenError (Response.status response)
                                    (Response.statusText response))
       else
         data <- json_ response ;;
         token <- property "access_token" access_token data ;;
         ttl <- property "expires_in" expires_in data ;;
         _ <- set_token token (new_expiry now ttl) ;;
         ret token)
      (fun error => throw error).

(** *** The request gateway (lines 169-224) *)

Definition api_base : string := "https://test.api.amadeus.com/".

(** A value interpolated in a template literal. *)
Definition template_string (s : option string) : string :=
  match s with
  | Some v => v
  | None => "undefined"
  end.

(** The [url] and [options] that [makeAmadeusRequest] hands to [fetch]. *)
Definition request_options (endpoint method : string)
    (queryParams : option (list (string * string)))
    (body : option BookingBody.t) (token : option string) : Request.t :=
  {| Request.url := api_base ++ endpoint;
     Request.query := queryParams;
     Request.method := method;
     Request.headers :=
       app [("Authorization", "Bearer " ++ template_string token);
            ("Accept", "application/json")]
           match body with
           | Some _ => [("Content-Type", "application/json")]
           | None => []
           end;
     Request.body := option_map JsonBody body |}.

Definition makeAmadeusRequest (endpoint method : string)
    (queryParams : option (list (string * string)))
    (body : option BookingBody.t) : Async Json :=
  token <- getAccessToken ;;
  try_catch
    (response <- fetch_ (request_options endpoint method queryParams body token) ;;
     if negb (Response.ok response)
     then throw (ApiError (Response.status response)
                          (Response.statusText response)
                          (Response.text response))
     else json_ response)
    (fun error => throw error).

(** The message of a thrown error (lines 153, 197-213, 501, 521; for the
    errors the engine raises, the engine's text). *)
Definition newline : string := String (ascii_of_nat 10) EmptyString.

Definition Error_message (e : Error) : string :=
  match e with
  | FetchError reason => reason
  | JsonSyntaxError => "Unexpected token in JSON"
  | AccessTokenError st txt =>
      "Failed to get access token: " ++ Z_toString st ++ " " ++ txt
  | ApiError st txt errorText =>
      if st =? 404 then
        "Amadeus API error: 404 Not Found" ++ newline ++ errorText ++ newline ++ newline
        ++ "This could be due to:" ++ newline
        ++ "1. Invalid city code - Make sure to use valid IATA 3-letter city codes (e.g., 'PAR' for Paris, 'NYC' for New York)" ++ newline
        ++ "2. No hotels found with the specified criteria" ++ newline
        ++ "3. API endpoint may have changed - Please check Amadeus API documentation" ++ newline
      else if st =? 400 then
        "Amadeus API error: 400 Bad Request" ++ newline ++ errorText ++ newline ++ newline
        ++ "This could be due to:" ++ newline
        ++ "1. Invalid parameters - Check the format of all parameters" ++ newline
        ++ "2. Missing required parameters" ++ newline
        ++ "3. Invalid date format - Use YYYY-MM-DD format" ++ newline
      else
        "Amadeus API error: " ++ Z_toString st ++ " " ++ txt ++ newline ++ errorText
  | NoHotelsFound cityCode => "No hotels found in city: " ++ cityCode
  | NoValidHotelIds => "Could not extract valid hotel IDs"
  | RangeError_InvalidTime => "Invalid time value"
  | TypeError_null property =>
      "Cannot read properties of null (reading '" ++ property ++ "')"
  end.

(** *** Hotel list (lines 231-257) *)

Definition hotelList_query (params : HotelListParams.t) : list (string * string) :=
  app [("cityCode", HotelListParams.cityCode params)]
 (app match HotelListParams.radius params with
      | Some r =>
          [("radius", Number_toString r);
           ("radiusUnit",
            if truthy_string (HotelListParams.radiusUnit params)
            then template_string (HotelListParams.radiusUnit params) else "KM")]
      | None => []
      end
 (app match HotelListParams.amenities params with
      | Some (a :: l) => [("amenities", Array_join "," (a :: l))]
      | _ => []
      end
      match HotelListParams.ratings params with
      | Some (r :: l) => [("ratings", Array_join "," (map Number_toString (r :: l)))]
      | _ => []
      end)).

Definition hotelList (params : HotelListParams.t) : Async Json :=
  try_catch
    (makeAmadeusRequest "v1/reference-data/locations/hotels/by-city" "GET"
       (Some (hotelList_query params)) None)
    (fun error => throw error).

(** The argument [{ cityCode }] built at lines 267 and 495-497. *)
Definition cityOnly (cityCode : string) : HotelListParams.t :=
  {| HotelListParams.cityCode := cityCode;
     HotelListParams.radius := None;
     HotelListParams.radiusUnit := None;
     HotelListParams.amenities := None;
     HotelListParams.ratings := None |}.

(** *** Mock data (lines 264-486) *)

(** [hotel.rating || 4]. *)
Definition rating_or_4 (hotel : Hotel.t) : float :=
  match Hotel.rating hotel with
  | Some r => if truthy_number (Some r) then r else 4%float
  | None => 4%float
  end.

(** [rating >= 5]. *)
Definition is_five_star (rating : float) : bool := PrimFloat.leb 5%float rating.

(** [100 + (rating * 50)]. *)
Definition basePrice_of (rating : float) : float :=
  PrimFloat.add 100%float (PrimFloat.mul rating 50%float).

Definition standard_room_text : string :=
  "Comfortable standard room with modern amenities.".

(** The callback of [hotels.map] (lines 270-323). *)
Definition mockOffer (checkInDate checkOutDate : string) (hotel : Hotel.t)
  : Async HotelOffers.t :=
  hotelId <-
    (match Hotel.hotelId hotel with
     | Some (String c r) => ret (String c r)
     | _ => x <- Math_random_ ;;
            ret ("MOCK-" ++ Number_toString (Math_floor (PrimFloat.mul x 10000%float)))
     end) ;;
  let rating := rating_or_4 hotel in
  now <- Date_now_ ;;
  let offerId := "OFF-" ++ hotelId ++ "-" ++ Z_toString now in
  let basePrice := basePrice_of rating in
  deadline <- cancellationDeadline checkInDate ;;
  ret {| HotelOffers.hotel := hotel;
         HotelOffers.available := true;
         HotelOffers.offers :=
           [ {| Offer.id := offerId;
                Offer.checkInDate := checkInDate;
                Offer.checkOutDate := checkOutDate;
                Offer.room :=
                  {| Room.type := if is_five_star rating then "SUITE" else "STANDARD";
                     Room.typeEstimated :=
                       {| TypeEstimated.category :=
                            if is_five_star rating then "SUITE" else "STANDARD";
                          TypeEstimated.beds := 1;
                          TypeEstimated.bedType := "KING" |};
                     Room.description :=
                       "Beautiful " ++ (if is_five_star rating then "suite" else "room")
                       ++ " with " ++ (if is_five_star rating then "luxury" else "standard")
                       ++ " amenities." |};
                Offer.price :=
                  {| Price.currency := "USD";
                     Price.base := Number_toString basePrice;
                     Price.total := Number_toString (PrimFloat.mul basePrice 1.1%float);
                     Price.taxes :=
                       [ {| Tax.amount := Number_toString (PrimFloat.mul basePrice 0.1%float);
                            Tax.currency := "USD";
                            Tax.included := true |} ] |};
                Offer.boardType := "BREAKFAST_INCLUDED";
                Offer.policies :=
                  {| Policies.cancellations :=
                       [ {| Cancellation.deadline := deadline;
                            Cancellation.amount :=
                              Number_toString (PrimFloat.mul basePrice 0.2%float);
                            Cancellation.type := "PARTIAL";
                            Cancellation.description := None |} ];
                     Policies.checkInOut :=
                       {| CheckInOut.checkIn := "15:00";
                          CheckInOut.checkOut := "11:00" |} |} |} ] |}.

(** The object returned from the [catch] branch (lines 329-390). *)
Definition basicMock (cityCode checkInDate checkOutDate : string) : Async HotelOffers.t :=
  now <- Date_now_ ;;
  deadline <- cancellationDeadline checkInDate ;;
  ret {| HotelOffers.hotel :=
           {| Hotel.name := Some (cityCode ++ " Grand Hotel");
              Hotel.hotelId := Some ("MOCK-" ++ cityCode ++ "-001");
              Hotel.rating := Some 4%float;
              Hotel.address :=
                Some {| Address.lines := ["123 Main Street"];
                        Address.cityName := cityCode;
                        Address.countryCode := "US";
                        Address.postalCode := None |};
              Hotel.geoCode := None;
              Hotel.amenities := ["WIFI"; "RESTAURANT"; "GYM"];
              Hotel.contact := None |};
         HotelOffers.available := true;
         HotelOffers.offers :=
           [ {| Offer.id := "OFF-MOCK-" ++ Z_toString now;
                Offer.checkInDate := checkInDate;
                Offer.checkOutDate := checkOutDate;
                Offer.room :=
                  {| Room.type := "STANDARD";
                     Room.typeEstimated :=
                       {| TypeEstimated.category := "STANDARD";
                          TypeEstimated.beds := 1;
                          TypeEstimated.bedType := "KING" |};
                     Room.description := standard_room_text |};
                Offer.price :=
                  {| Price.currency := "USD";
                     Price.base := "250";
                     Price.total := "275";
                     Price.taxes :=
                       [ {| Tax.amount := "25";
                            Tax.currency := "USD";
                            Tax.included := true |} ] |};
                Offer.boardType := "BREAKFAST_INCLUDED";
                Offer.policies :=
                  {| Policies.cancellations :=
                       [ {| Cancellation.deadline := deadline;
                            Cancellation.amount := "50";
                            Cancellation.type := "PARTIAL";
                            Cancellation.description := None |} ];
                     Policies.checkInOut :=
                       {| CheckInOut.checkIn := "15:00";
                          CheckInOut.checkOut := "11:00" |} |} |} ] |}.

(** [hotelsResponse?.data || []]: the optional chain reads [undefined]
    on [null]. *)
Definition data_or_empty (j : Json) : list Hotel.t :=
  match data_hotels j with
  | Some l => l
  | None => []
  end.

Definition getMockHotelOffers (cityCode checkInDate checkOutDate : string) : Async Json :=
  try_catch
    (hotelsResponse <- hotelList (cityOnly cityCode) ;;
     let hotels := data_or_empty hotelsResponse in
     offers <- Array_map (mockOffer checkInDate checkOutDate) hotels ;;
     ret (HotelOffersJson offers))
    (fun error =>
       basic <- basicMock cityCode checkInDate checkOutDate ;;
       ret (HotelOffersJson [basic])).

Definition getMockHotelOfferDetails (offerId : string) : Async Json :=
  let hotelId := match match_OFF offerId with
                 | Some t => t
                 | None => "MOCK-HOTEL"
                 end in
  deadline <- cancellationDeadline "2025-04-01" ;;
  ret (OfferDetailJson
         {| OfferDetail.hotel :=
              {| Hotel.name := Some ("Hotel " ++ hotelId);
                 Hotel.hotelId := Some hotelId;
                 Hotel.rating := Some 4%float;
                 Hotel.address :=
                   Some {| Address.lines := ["123 Main Street"];
                           Address.cityName := "Example City";
                           Address.countryCode := "US";
                           Address.postalCode := Some "12345" |};
                 Hotel.geoCode :=
                   Some {| GeoCode.latitude := 37.7749%float;
                           GeoCode.longitude := (-122.4194)%float |};
                 Hotel.amenities := ["WIFI"; "RESTAURANT"; "GYM"; "SWIMMING_POOL"];
                 Hotel.contact :=
                   Some {| Contact.phone := "+1-555-123-4567";
                           Contact.email := "info@example.com" |} |};
            OfferDetail.offer :=
              {| Offer.id := offerId;
                 Offer.checkInDate := "2025-04-01";
                 Offer.checkOutDate := "2025-04-05";
                 Offer.room :=
                   {| Room.type := "STANDARD";
                      Room.typeEstimated :=
                        {| TypeEstimated.category := "STANDARD";
                           TypeEstimated.beds := 1;
                           TypeEstimated.bedType := "KING" |};
                      Room.description := standard_room_text |};
                 Offer.price :=
                   {| Price.currency := "USD";
                      Price.base := "250";
                      Price.total := "275";
                      Price.taxes :=
                        [ {| Tax.amount := "25";
                             Tax.currency := "USD";
                             Tax.included := true |} ] |};
                 Offer.boardType := "BREAKFAST_INCLUDED";
                 Offer.policies :=
                   {| Policies.cancellations :=
                        [ {| Cancellation.deadline := deadline;
                             Cancellation.amount := "50";
                             Cancellation.type := "PARTIAL";
                             Cancellation.description :=
                               Some "Cancellation is free until 3 days before check-in. After that, a fee applies." |} ];
                      Policies.checkInOut :=
                        {| CheckInOut.checkIn := "15:00";
                           CheckInOut.checkOut := "11:00" |} |} |} |}).

Definition getMockBookingConfirmation (offerId : string) (guests : list Guest.t)
  : Async Json :=
  t1 <- Date_now_ ;;
  t2 <- Date_now_ ;;
  t3 <- Date_now_ ;;
  ret (BookingJson
         {| BookingConfirmation.id := "BK" ++ Z_toString t1;
            BookingConfirmation.providerConfirmationId := "PC" ++ Z_toString t2;
            BookingConfirmation.associatedRecords :=
              [ {| AssociatedRecord.reference := "REF" ++ Z_toString t3;
                   AssociatedRecord.originSystemCode := "MOCK" |} ];
            BookingConfirmation.guests := guests;
            BookingConfirmation.offerId := offerId |}).

(** *** Hotel search (lines 490-583) *)

(** The predicate of the client-side name filter (line 508):
    [hotel.name && hotel.name.toLowerCase().includes(searchTerm)]. *)
Definition name_matches (searchTerm : string) (hotel : Hotel.t) : bool :=
  match Hotel.name hotel with
  | Some (String c r) => String_includes (String_toLowerCase (String c r)) searchTerm
  | _ => false
  end.

(** [filteredHotels] after lines 504-515. *)
Definition filteredHotels_of (hotelName : option string) (data : list Hotel.t)
  : list Hotel.t :=
  if truthy_string hotelName then
    let searchTerm := String_toLowerCase (template_string hotelName) in
    match filter (name_matches searchTerm) data with
    | [] => data
    | h :: l => h :: l
    end
  else data.

(** [hotelsToCheck] (line 518): [filteredHotels.slice(0, 5)]. *)
Definition hotelsToCheck_of (filteredHotels : list Hotel.t) : list Hotel.t :=
  firstn 5 filteredHotels.

(** [hotelIds] (line 519): [hotelsToCheck.map(h => h.hotelId).filter(Boolean)]. *)
Definition hotelIds_of (hotelsToCheck : list Hotel.t) : list (option string) :=
  filter truthy_string (map Hotel.hotelId hotelsToCheck).

(** [hotelIds.join(',')]: an absent element joins as the empty string. *)
Definition join_ids (hotelIds : list (option string)) : string :=
  Array_join ","
    (map (fun o => match o with Some s => s | None => EmptyString end) hotelIds).

Definition optional_param (key : string) (value : option string)
  : list (string * string) :=
  if truthy_string value then [(key, template_string value)] else [].

Definition offersParams_of (params : HotelSearchParams.t)
    (hotelIds : list (option string)) : list (string * string) :=
  app [("hotelIds", join_ids hotelIds);
       ("checkInDate", HotelSearchParams.checkInDate params);
       ("checkOutDate", HotelSearchParams.checkOutDate params);
       ("adults", Number_toString (HotelSearchParams.adults params));
       ("roomQuantity", Number_toString (HotelSearchParams.roomQuantity params))]
 (app (optional_param "currency" (HotelSearchParams.currency params))
 (app (optional_param "priceRange" (HotelSearchParams.priceRange params))
 (app (optional_param "boardType" (HotelSearchParams.boardType params))
      (optional_param "paymentPolicy" (HotelSearchParams.paymentPolicy params))))).

Definition offers_endpoint : string := "v3/shopping/hotel-offers".

Definition makeOffersRequest (params : HotelSearchParams.t)
    (hotelIds : list (option string)) : Async Json :=
  try_catch
    (makeAmadeusRequest offers_endpoint "GET"
       (Some (offersParams_of params hotelIds)) None)
    (fun error => throw error).

Definition hotelSearchImplementation (params : HotelSearchParams.t) : Async Json :=
  try_catch
    (hotelListResult <- hotelList (cityOnly (HotelSearchParams.cityCode params)) ;;
     listed <- property "data" data_hotels hotelListResult ;;
     match listed with
     | None | Some [] => throw (NoHotelsFound (HotelSearchParams.cityCode params))
     | Some data =>
         let filteredHotels :=
           filteredHotels_of (HotelSearchParams.hotelName params) data in
         let hotelsToCheck := hotelsToCheck_of filteredHotels in
         let hotelIds := hotelIds_of hotelsToCheck in
         match hotelIds with
         | [] => throw NoValidHotelIds
         | _ :: _ => makeOffersRequest params hotelIds
         end
     end)
    (fun error => throw error).

Definition hotelSearch (params : HotelSearchParams.t) : Async Json :=
  try_catch
    (hotelSearchImplementation params)
    (fun error =>
       getMockHotelOffers (HotelSearchParams.cityCode params)
                          (HotelSearchParams.checkInDate params)
                          (HotelSearchParams.checkOutDate params)).

(** *** Offer details (lines 587-600) *)

Definition hotelOffer (params : HotelOfferParams.t) : Async Json :=
  try_catch
    (makeAmadeusRequest
       ("v3/shopping/hotel-offers/" ++ HotelOfferParams.offerId params) "GET" None None)
    (fun error => getMockHotelOfferDetails (HotelOfferParams.offerId params)).

(** *** Booking (lines 604-647) *)

Definition bookingBody_of (params : HotelBookingParams.t) : BookingBody.t :=
  {| BookingBody.offerId := HotelBookingParams.offerId params;
     BookingBody.guests :=
       map (fun guest =>
              {| Guest.name :=
                   {| GuestName.title := GuestName.title (Guest.name guest);
                      GuestName.firstName := GuestName.firstName (Guest.name guest);
                      GuestName.lastName := GuestName.lastName (Guest.name guest) |};
                 Guest.contact :=
                   {| Contact.phone := Contact.phone (Guest.contact guest);
                      Contact.email := Contact.email (Guest.contact guest) |} |})
           (HotelBookingParams.guests params);
     BookingBody.payments :=
       map (fun payment =>
              {| Payment.method := Payment.method payment;
                 Payment.card :=
                   match Payment.card payment with
                   | Some card =>
                       Some {| Card.vendorCode := Card.vendorCode card;
                               Card.cardNumber := Card.cardNumber card;
                               Card.expiryDate := Card.expiryDate card |}
                   | None => None
                   end |})
           (HotelBookingParams.payments params) |}.

Definition booking_endpoint : string := "v1/booking/hotel-bookings".

Definition hotelBooking (params : HotelBookingParams.t) : Async Json :=
  try_catch
    (let bookingBody := bookingBody_of params in
     try_catch
       (makeAmadeusRequest booking_endpoint "POST" None (Some bookingBody))
       (fun error =>
          getMockBookingConfirmation (HotelBookingParams.offerId params)
                                     (HotelBookingParams.guests params)))
    (fun error =>
       getMockBookingConfirmation (HotelBookingParams.offerId params)
                                  (HotelBookingParams.guests params)).

End Program.

(** ** Concrete environments

    Small remote services used to run the program on examples. *)

Definition json_response (j : Json) : Response.t :=
  {| Response.status := 200; Response.statusText := "OK";
     Response.text := "{...}"; Response.json := Some j |}.

Definition error_response (status : Z) (statusText : string) : Response.t :=
  {| Response.status := status; Response.statusText := statusText;
     Response.text := "{ errors }"; Response.json := Some (OtherJson "{ errors }") |}.

Definition listing_url : string :=
  api_base ++ "v1/reference-data/locations/hotels/by-city".

(** A service that grants the token [tok] for [ttl] seconds, lists
    [hotels] for every city and gives [other] to every other request. *)
Definition service (tok : string) (ttl : Z) (hotels : option (list Hotel.t))
    (other : FetchResult) (history : list Request.t) (r : Request.t) : FetchResult :=
  if String.eqb (Request.url r) token_url
  then Resolved (json_response (TokenJson (Some tok) (Some ttl)))
  else if String.eqb (Request.url r) listing_url
  then Resolved (json_response (HotelListJson hotels))
  else other.

Definition env_of (fetch : list Request.t -> Request.t -> FetchResult) : Env :=
  {| AMADEUS_API_KEY := "key";
     AMADEUS_API_SECRET := "secret";
     Date_now := fun n => 1743500000000 + 1000 * Z.of_nat n;
     Math_random := fun _ => 0.5%float;
     Date_parse_fallback := fun _ => None;
     fetch := fetch |}.

Definition server_error : FetchResult :=
  Resolved (error_response 500 "Internal Server Error").

Definition plain_hotel (name hotelId : option string) (rating : option float) : Hotel.t :=
  {| Hotel.name := name; Hotel.hotelId := hotelId; Hotel.rating := rating;
     Hotel.address := None; Hotel.geoCode := None; Hotel.amenities := [];
     Hotel.contact := None |}.

Definition search_params (cityCode checkInDate checkOutDate : string)
    (adults : float) (hotelName : option string) : HotelSearchParams.t :=
  {| HotelSearchParams.cityCode := cityCode;
     HotelSearchParams.checkInDate := checkInDate;
     HotelSearchParams.checkOutDate := checkOutDate;
     HotelSearchParams.adults := adults;
     HotelSearchParams.roomQuantity := 1%float;
     HotelSearchParams.priceRange := None;
     HotelSearchParams.currency := None;
     HotelSearchParams.boardType := None;
     HotelSearchParams.paymentPolicy := Some "NONE";
     HotelSearchParams.hotelName := hotelName |}.

(** The end-to-end example of the specification. *)
Definition paris_query : HotelSearchParams.t :=
  search_params "PAR" "2025-04-01" "2025-04-05" 2%float None.

Definition ritz : Hotel.t := plain_hotel (Some "Ritz Paris") (Some "HLPAR266") (Some 5%float).

(** ** Vocabulary of the statements *)

(** The test of line 135: a non-empty token is cached and its stored
    expiry instant lies after the clock reading this call will make. *)
Definition reusable (E : Env) (w : World) : bool :=
  truthy_string (accessToken w)
  && expiry_after (tokenExpiry w) (Date_now E (clock w)).

(** A credential exchange that does not deliver a token body: the request
    is rejected, answered with a non-2xx status, or its body is not JSON
    or is the JSON value [null]. *)
Definition exchange_fails (r : FetchResult) : bool :=
  match r with
  | Rejected _ => true
  | Resolved response =>
      negb (Response.ok response)
      || match Response.json response with
         | Some body => is_null body
         | None => true
         end
  end.

(** The errors that come out of the token manager and the gateway. *)
Definition gateway_error (e : Error) : bool :=
  match e with
  | FetchError _ | JsonSyntaxError | AccessTokenError _ _ | ApiError _ _ _ => true
  | TypeError_null property => String.eqb property "access_token"
  | NoHotelsFound _ | NoValidHotelIds | RangeError_InvalidTime => false
  end.

(** The same query with another name filter. *)
Definition with_hotelName (p : HotelSearchParams.t) (hotelName : option string)
  : HotelSearchParams.t :=
  {| HotelSearchParams.cityCode := HotelSearchParams.cityCode p;
     HotelSearchParams.checkInDate := HotelSearchParams.checkInDate p;
     HotelSearchParams.checkOutDate := HotelSearchParams.checkOutDate p;
     HotelSearchParams.adults := HotelSearchParams.adults p;
     HotelSearchParams.roomQuantity := HotelSearchParams.roomQuantity p;
     HotelSearchParams.priceRange := HotelSearchParams.priceRange p;
     HotelSearchParams.currency := HotelSearchParams.currency p;
     HotelSearchParams.boardType := HotelSearchParams.boardType p;
     HotelSearchParams.paymentPolicy := HotelSearchParams.paymentPolicy p;
     HotelSearchParams.hotelName := hotelName |}.

(** The identifiers the discovery stage hands to the offers query, for a
    listing [data] and a name filter. *)
Definition discovered_ids (hotelName : option string) (data : list Hotel.t)
  : list (option string) :=
  hotelIds_of (hotelsToCheck_of (filteredHotels_of hotelName data)).

Definition offers_url : string := api_base ++ offers_endpoint.

(** The world [w'] has the request log of [w] followed by further
    requests, each of which satisfies [P]. *)
Definition extends_log (P : Request.t -> Prop) (w w' : World) : Prop :=
  exists added, network w' = (network w ++ added)%list /\ Forall P added.

(** What C4 says of a logged request [r] of a search started in [w]: if
    [r] goes to the offers endpoint, the listing call made from [w]
    returned some [data], and [r] carries the identifiers discovered from
    [data], at most five of them, joined under the key [hotelIds]. *)
Definition capped_offers_request (E : Env) (p : HotelSearchParams.t) (w : World)
    (r : Request.t) : Prop :=
  Request.url r = offers_url ->
  exists body w1 data,
    hotelList E (cityOnly (HotelSearchParams.cityCode p)) w = (Returned body, w1)
    /\ data_hotels body = Some data
    /\ Request.query r
       = Some (offersParams_of p (discovered_ids (HotelSearchParams.hotelName p) data))
    /\ In ("hotelIds", join_ids (discovered_ids (HotelSearchParams.hotelName p) data))
          (offersParams_of p (discovered_ids (HotelSearchParams.hotelName p) data))
    /\ (length (discovered_ids (HotelSearchParams.hotelName p) data) <= 5)%nat.

(** A price computed from a number [rating]: the base is
    [100 + rating * 50], the total [base * 1.1], and there is one
    included tax line of [base * 0.1]; each printed by [toString]. *)
Definition priced_from (rating : float) (pr : Price.t) : Prop :=
  let base := PrimFloat.add 100%float (PrimFloat.mul rating 50%float) in
  Price.base pr = Number_toString base
  /\ Price.total pr = Number_toString (PrimFloat.mul base 1.1%float)
  /\ Price.taxes pr =
     [ {| Tax.amount := Number_toString (PrimFloat.mul base 0.1%float);
          Tax.currency := "USD";
          Tax.included := true |} ].

(** The hotel's own rating is at least five. *)
Definition has_five_stars (h : Hotel.t) : bool :=
  match Hotel.rating h with
  | Some r => PrimFloat.leb 5%float r
  | None => false
  end.

(** The substitute entry for hotel [h]: [h] itself with one offer, priced
    from [rating], of room type [SUITE] or [STANDARD] according to
    [suite], with one cancellation line whose deadline is [deadline], and
    check-in and check-out at 15:00 and 11:00. *)
Definition substitute_for (rating : float) (suite : bool) (deadline : string)
    (h : Hotel.t) (ho : HotelOffers.t) : Prop :=
  HotelOffers.hotel ho = h
  /\ exists o,
       HotelOffers.offers ho = [o]
       /\ priced_from rating (Offer.price o)
       /\ Room.type (Offer.room o) = (if suite then "SUITE" else "STANDARD")
       /\ (exists c, Policies.cancellations (Offer.policies o) = [c]
                     /\ Cancellation.deadline c = deadline)
       /\ CheckInOut.checkIn (Policies.checkInOut (Offer.policies o)) = "15:00"
       /\ CheckInOut.checkOut (Policies.checkInOut (Offer.policies o)) = "11:00".

(** Base, total and tax strings for a rating. *)
Definition price_strings (rating : float) : string * string * string :=
  let base := basePrice_of rating in
  (Number_toString base,
   Number_toString (PrimFloat.mul base 1.1%float),
   Number_toString (PrimFloat.mul base 0.1%float)).

(** A listing of one hotel whose rating is the number zero, behind an
    offers endpoint that answers 500. *)
Definition zero_rated : Hotel.t :=
  plain_hotel (Some "Pension Nul") (Some "HLPAR000") (Some 0%float).

Definition zero_rated_env : Env :=
  env_of (service "tok" 1799 (Some [zero_rated]) server_error).

(** The listing of the end-to-end example, behind a failing offers
    endpoint. *)
Definition ritz_env : Env :=
  env_of (service "tok" 1799 (Some [ritz]) server_error).

(** A booking confirmation whose two identifiers are non-empty. *)
Definition confirmed_with_ids (j : Json) : Prop :=
  exists c,
    j = BookingJson c
    /\ BookingConfirmation.id c <> EmptyString
    /\ BookingConfirmation.providerConfirmationId c <> EmptyString.

(** The confirmation [getMockBookingConfirmation] builds when its three
    clock readings start at reading number [n]. *)
Definition fresh_confirmation (E : Env) (n : nat) (p : HotelBookingParams.t)
  : BookingConfirmation.t :=
  {| BookingConfirmation.id := "BK" ++ Z_toString (Date_now E n);
     BookingConfirmation.providerConfirmationId :=
       "PC" ++ Z_toString (Date_now E (S n));
     BookingConfirmation.associatedRecords :=
       [ {| AssociatedRecord.reference := "REF" ++ Z_toString (Date_now E (S (S n)));
            AssociatedRecord.originSystemCode := "MOCK" |} ];
     BookingConfirmation.guests := HotelBookingParams.guests p;
     BookingConfirmation.offerId := HotelBookingParams.offerId p |}.

(** A service whose booking endpoint answers 200 with a body that holds
    no confirmation. *)
Definition hollow_booking_env : Env :=
  env_of (service "tok" 1799 None (Resolved (json_response (OtherJson "{}")))).

Definition john_doe : Guest.t :=
  {| Guest.name := {| GuestName.title := "MR"; GuestName.firstName := "John";
                      GuestName.lastName := "Doe" |};
     Guest.contact := {| Contact.phone := "+1234567890";
                         Contact.email := "john.doe@example.com" |} |}.

Definition visa : Payment.t :=
  {| Payment.method := "CREDIT_CARD";
     Payment.card := Some {| Card.vendorCode := "VI";
                             Card.cardNumber := "4111111111111111";
                             Card.expiryDate := "2025-12" |} |}.

Definition booking_example : HotelBookingParams.t :=
  {| HotelBookingParams.offerId := "XYZ123";
     HotelBookingParams.guests := [john_doe];
     HotelBookingParams.payments := [visa] |}.

(** A query whose check-in date names month 13. *)
Definition bad_date_query : HotelSearchParams.t :=
  search_params "PAR" "2025-13-45" "2025-04-05" 2%float None.

(** Every character of the string belongs to the class [[A-Za-z0-9-]]. *)
Fixpoint all_token_chars (s : string) : bool :=
  match s with
  | EmptyString => true
  | String c r => is_token_char c && all_token_chars r
  end.

(** A world in which the token granted at the first clock reading of
    [ritz_env] is cached. *)
Definition cached_world : World :=
  {| accessToken := Some "tok"; tokenExpiry := Some 1743501739000;
     clock := 1%nat; draws := 0%nat; network := [] |}.

(** The same cache once its expiry instant has passed. *)
Definition cached_world_expired : World :=
  {| accessToken := Some "tok"; tokenExpiry := Some 1743400000000;
     clock := 1%nat; draws := 0%nat; network := [] |}.

(** A network on which every request is rejected. *)
Definition offline_env : Env := env_of (fun _ _ => Rejected "fetch failed").

(** A listing whose only hotel carries no identifier. *)
Definition anonymous_hotel : Hotel.t := plain_hotel (Some "Chez Nous") None None.

Definition anonymous_env : Env :=
  env_of (service "tok" 1799 (Some [anonymous_hotel]) server_error).




(** Five hotels that all carry an identifier. *)
Definition five_hotels : list Hotel.t :=
  [ plain_hotel (Some "One") (Some "H1") None;
    plain_hotel (Some "Two") (Some "H2") None;
    plain_hotel (Some "Three") (Some "H3") None;
    plain_hotel (Some "Four") (Some "H4") None;
    plain_hotel (Some "Five") (Some "H5") None ].

(** A service whose every 2xx answer is the body [null]. *)
Definition null_body_env : Env := env_of (fun _ _ => Resolved (json_response NullJson)).


(** A service whose first credential exchange grants the empty string as
    the token, for 1799 seconds, and whose later exchanges grant
    [tok]. *)
Definition empty_token_env : Env :=
  env_of (fun history _ =>
            match history with
            | [] => Resolved (json_response (TokenJson (Some EmptyString) (Some 1799)))
            | _ :: _ => Resolved (json_response (TokenJson (Some "tok") (Some 1799)))
            end).

(** How many of the requests [l] go to [url]. *)
Definition count_url (url : string) (l : list Request.t) : nat :=
  length (filter (fun r => String.eqb (Request.url r) url) l).

(** The request carries no query parameter named [hotelName]. *)
Definition no_hotelName_key (r : Request.t) : Prop :=
  forall q, Request.query r = Some q -> ~ In "hotelName" (map fst q).

(** The requests one gateway call can add to the log: the credential
    exchange alone (it failed), the endpoint request alone (the token was
    cached), or the exchange followed by the endpoint request. *)
Definition gateway_batch (E : Env) (endpoint method : string)
    (q : option (list (string * string))) (b : option BookingBody.t)
    (l : list Request.t) : Prop :=
  l = [token_request E]
  \/ exists token,
       l = [request_options endpoint method q b token]
       \/ l = [token_request E; request_options endpoint method q b token].

Definition listing_endpoint : string := "v1/reference-data/locations/hotels/by-city".

(** The requests one search can add to the log: the batch of the listing
    call, then possibly the batch of the offers call, then possibly the
    batch of the listing call the mock search makes. *)
Definition search_traffic (E : Env) (p : HotelSearchParams.t) (l : list Request.t) : Prop :=
  exists l1 l2 l3,
    l = (l1 ++ l2 ++ l3)%list
    /\ gateway_batch E listing_endpoint "GET"
         (Some [("cityCode", HotelSearchParams.cityCode p)]) None l1
    /\ (l2 = []
        \/ exists ids, gateway_batch E offers_endpoint "GET"
                         (Some (offersParams_of p ids)) None l2)
    /\ (l3 = []
        \/ gateway_batch E listing_endpoint "GET"
             (Some [("cityCode", HotelSearchParams.cityCode p)]) None l3).

(** Every character of the string is a decimal digit. *)
Fixpoint all_digits (s : string) : bool :=
  match s with
  | EmptyString => true
  | String c r => is_digit c && all_digits r
  end.

(** The hotel identifier of the detail substitute for [offerId]. *)
Definition detail_hotelId (offerId : string) : string :=
  match match_OFF offerId with
  | Some t => t
  | None => "MOCK-HOTEL"
  end.

Definition detail_endpoint (offerId : string) : string :=
  "v3/shopping/hotel-offers/" ++ offerId.

(** The string holds ASCII characters only.  On such strings
    [toLowerCase] changes the letters [A] to [Z] and nothing else. *)
Fixpoint ascii_only (s : string) : bool :=
  match s with
  | EmptyString => true
  | String c r => Nat.ltb (nat_of_ascii c) 128 && ascii_only r
  end.

(** Two characters are the same, or are the two cases of one letter: an
    upper-case letter and the character 32 places after it. *)
Definition same_letter (c d : ascii) : bool :=
  Ascii.eqb c d
  || (is_upper c && Nat.eqb (nat_of_ascii d) (nat_of_ascii c + 32))
  || (is_upper d && Nat.eqb (nat_of_ascii c) (nat_of_ascii d + 32)).

(** Two texts are the same, letter case aside. *)
Fixpoint same_text (s t : string) : bool :=
  match s, t with
  | EmptyString, EmptyString => true
  | String c s', String d t' => same_letter c d && same_text s' t'
  | _, _ => false
  end.

(** [term] occurs in [name], letter case aside. *)
Definition occurs_ignoring_case (name term : string) : Prop :=
  exists before found after,
    name = before ++ found ++ after /\ same_text found term = true.

(** The hotel has a name in which [term] occurs, letter case aside. *)
Definition named_like (term : string) (hotel : Hotel.t) : Prop :=
  exists name, Hotel.name hotel = Some name /\ occurs_ignoring_case name term.

(** ** Response formatters (lines 654-683 and 824-843)

    The texts the tool layer renders from a listing and from a booking
    confirmation.  The pictographs of the source file are kept as the
    UTF-8 bytes the file holds. *)

Definition bytes (l : list nat) : string :=
  string_of_list_ascii (map ascii_of_nat l).

Definition icon_hotel : string := bytes [195; 176; 197; 184; 194; 168]%nat.
Definition icon_id : string := bytes [195; 176; 197; 184; 226; 128; 160; 226; 128; 157]%nat.
Definition icon_pin : string := bytes [195; 176; 197; 184; 226; 128; 156]%nat.
Definition icon_coordinates : string :=
  bytes [195; 176; 197; 184; 226; 128; 156; 197; 146]%nat.
Definition icon_star : string := bytes [195; 162; 194; 173]%nat.
Definition icon_bell : string :=
  bytes [195; 176; 197; 184; 226; 128; 186; 197; 189; 195; 175; 194; 184]%nat.
Definition icon_check : string := bytes [195; 162; 197; 147; 226; 128; 166]%nat.
Definition icon_bookmark : string :=
  bytes [195; 176; 197; 184; 226; 128; 157; 226; 128; 147]%nat.
Definition icon_label : string :=
  bytes [195; 176; 197; 184; 194; 183; 195; 175; 194; 184]%nat.
Definition icon_phone : string :=
  bytes [195; 176; 197; 184; 226; 128; 156; 197; 190]%nat.

(** [[...].filter(Boolean)] on strings: the empty ones are dropped. *)
Definition nonempty_strings (l : list string) : list string :=
  filter (fun s => truthy_string (Some s)) l.

(** The lines one hotel adds to the listing text (lines 660-680). *)
Definition hotel_block (hotel : Hotel.t) : string :=
  (icon_hotel ++ " "
   ++ (if truthy_string (Hotel.name hotel) then template_string (Hotel.name hotel)
       else "Unnamed Hotel") ++ newline)
  ++ (if truthy_string (Hotel.hotelId hotel)
      then icon_id ++ " ID: " ++ template_string (Hotel.hotelId hotel) ++ newline
      else EmptyString)
  ++ match Hotel.address hotel with
     | Some a =>
         icon_pin ++ " "
         ++ Array_join ", "
              (nonempty_strings [Array_join ", " (Address.lines a);
                                 Address.cityName a; Address.countryCode a])
         ++ newline
     | None => EmptyString
     end
  ++ match Hotel.geoCode hotel with
     | Some g =>
         icon_coordinates ++ " Coordinates: " ++ Number_toString (GeoCode.latitude g)
         ++ ", " ++ Number_toString (GeoCode.longitude g) ++ newline
     | None => EmptyString
     end
  ++ (if truthy_number (Hotel.rating hotel)
      then icon_star ++ " Rating: "
           ++ match Hotel.rating hotel with
              | Some r => Number_toString r
              | None => EmptyString
              end ++ newline
      else EmptyString)
  ++ match Hotel.amenities hotel with
     | _ :: _ =>
         icon_bell ++ " Amenities: " ++ Array_join ", " (Hotel.amenities hotel) ++ newline
     | [] => EmptyString
     end
  ++ newline.

(** [formatHotelListResults], on the [data] property of a listing body. *)
Definition formatHotelListResults (data : option (list Hotel.t)) : string :=
  match data with
  | None | Some [] => "No hotels found matching your criteria."
  | Some hotels =>
      fold_left (fun result hotel => result ++ hotel_block hotel) hotels
        ("Found " ++ Z_toString (Z.of_nat (length hotels)) ++ " hotels:"
         ++ newline ++ newline)
  end.

(** [formatHotelBookingResults], on the [data] property of a booking
    body. *)
Definition formatHotelBookingResults (data : option BookingConfirmation.t) : string :=
  match data with
  | None => "No booking confirmation received."
  | Some c =>
      let result := icon_check ++ " Hotel Booking Confirmed!" ++ newline ++ newline in
      let result :=
        if truthy_string (Some (BookingConfirmation.id c))
        then result ++ icon_bookmark ++ " Booking ID: " ++ BookingConfirmation.id c ++ newline
        else result in
      let result :=
        if truthy_string (Some (BookingConfirmation.providerConfirmationId c))
        then result ++ icon_label ++ " Provider Confirmation: "
             ++ BookingConfirmation.providerConfirmationId c ++ newline
        else result in
      let result :=
        match BookingConfirmation.associatedRecords c with
        | _ :: _ =>
            fold_left
              (fun result record =>
                 result ++ "- " ++ AssociatedRecord.reference record ++ " ("
                 ++ AssociatedRecord.originSystemCode record ++ ")" ++ newline)
              (BookingConfirmation.associatedRecords c)
              (result ++ icon_pin ++ " Associated Records:" ++ newline)
        | [] => result
        end in
      result ++ newline ++ icon_phone
      ++ " Contact the hotel directly for any changes or cancellations."
  end.

(** ** Properties *)

Section Facts.

Variable E : Env.

(** A handler that only rethrows leaves the computation as it is. *)
Lemma rethrow_id {A} (m : Async A) (w : World) :
  try_catch m (fun error => throw error) w = m w.
Proof.
  unfold try_catch, throw.
  destruct (m w) as [[a | e] w']; reflexivity.
Qed.

Lemma truthy_string_Some (tok : string) :
  tok <> EmptyString -> truthy_string (Some tok) = true.
Proof. destruct tok; [congruence | reflexivity]. Qed.

(** *** Token manager *)

(** All paths of [getAccessToken], read off its text. *)
Lemma getAccessToken_paths (w : World) :
  getAccessToken E w =
  if reusable E w then (Returned (accessToken w), tick w)
  else
    let w1 := logged (token_request E) (tick w) in
    match fetch E (network w) (token_request E) with
    | Rejected reason => (Thrown (FetchError reason), w1)
    | Resolved response =>
        if Response.ok response then
          match Response.json response with
          | Some data =>
              if is_null data then (Thrown (TypeError_null "access_token"), w1)
              else
                (Returned (access_token data),
                 with_token (access_token data)
                            (new_expiry (Date_now E (clock w)) (expires_in data)) w1)
          | None => (Thrown JsonSyntaxError, w1)
          end
        else (Thrown (AccessTokenError (Response.status response)
                                       (Response.statusText response)), w1)
    end.
Proof.
  unfold getAccessToken, reusable, bind, Date_now_, get_world.
  cbn [tick accessToken tokenExpiry].
  destruct (truthy_string (accessToken w) && _); [reflexivity |].
  rewrite rethrow_id.
  unfold bind, fetch_. cbn [network tick].
  destruct (fetch E (network w) (token_request E)) as [reason | response];
    [reflexivity |].
  destruct (Response.ok response); cbn [negb]; [| reflexivity].
  unfold json_, bind, property.
  destruct (Response.json response) as [data |]; [| reflexivity].
  destruct data; reflexivity.
Qed.

Lemma getAccessToken_cached (w : World) :
  reusable E w = true ->
  getAccessToken E w = (Returned (accessToken w), tick w).
Proof. intros H. rewrite getAccessToken_paths, H. reflexivity. Qed.

Lemma reusable_intro (w : World) (tok : string) (expiry : Z) :
  accessToken w = Some tok -> tok <> EmptyString ->
  tokenExpiry w = Some expiry -> Date_now E (clock w) < expiry ->
  reusable E w = true.
Proof.
  intros Ha Hne He Hlt. unfold reusable.
  rewrite Ha, He, truthy_string_Some by assumption.
  cbn. apply Z.ltb_lt. exact Hlt.
Qed.

(** A thrown error of the token manager is a gateway error and leaves
    the cached token and its expiry untouched. *)
Lemma getAccessToken_throws (w w' : World) (e : Error) :
  getAccessToken E w = (Thrown e, w') ->
  gateway_error e = true
  /\ w' = logged (token_request E) (tick w).
Proof.
  rewrite getAccessToken_paths.
  destruct (reusable E w); [discriminate |].
  cbv zeta.
  destruct (fetch E (network w) (token_request E)) as [reason | response].
  - intros H; inversion H; subst; split; reflexivity.
  - destruct (Response.ok response).
    + destruct (Response.json response) as [data |];
        [destruct (is_null data) |]; intros H; inversion H; subst;
        split; reflexivity.
    + intros H; inversion H; subst; split; reflexivity.
Qed.

(** C2.  While a non-empty token is cached and its stored expiry instant
    is strictly after the clock reading, [getAccessToken] returns that
    token and changes nothing but the count of clock readings: no request
    is issued, and a second call whose reading is again before the
    instant (for example one second later) returns the same token.  The
    stored instant is the one the last renewal computed: a renewal at
    reading [now] that is granted [tok] for [ttl] seconds stores
    [now + ttl * 1000 - 60000], and every call before that instant
    returns [tok] without a new exchange.  A cached token that is the
    empty string, or none, is not reused: whatever the stored instant,
    the call issues the credential exchange. *)
Theorem cached_token_reused_until_expiry (w : World) :
  (forall tok expiry,
      accessToken w = Some tok -> tok <> EmptyString ->
      tokenExpiry w = Some expiry ->
      Date_now E (clock w) < expiry ->
      getAccessToken E w = (Returned (Some tok), tick w)
      /\ network (tick w) = network w
      /\ accessToken (tick w) = Some tok
      /\ tokenExpiry (tick w) = Some expiry
      /\ (Date_now E (S (clock w)) < expiry ->
          getAccessToken E (tick w) = (Returned (Some tok), tick (tick w))))
  /\ (forall response tok ttl,
         reusable E w = false ->
         fetch E (network w) (token_request E) = Resolved response ->
         Response.ok response = true ->
         Response.json response = Some (TokenJson (Some tok) (Some ttl)) ->
         tok <> EmptyString ->
         let now := Date_now E (clock w) in
         exists w1,
           getAccessToken E w = (Returned (Some tok), w1)
           /\ accessToken w1 = Some tok
           /\ tokenExpiry w1 = Some (now + ttl * 1000 - 60000)
           /\ (Date_now E (clock w1) < now + ttl * 1000 - 60000 ->
               getAccessToken E w1 = (Returned (Some tok), tick w1)
               /\ network (tick w1) = network w1))
  /\ (truthy_string (accessToken w) = false ->
      network (snd (getAccessToken E w)) = (network w ++ [token_request E])%list).
Proof.
  split; [| split].
  - intros tok expiry Ha Hne He Hlt.
    pose proof (reusable_intro w tok expiry Ha Hne He Hlt) as Hr.
    rewrite (getAccessToken_cached w Hr), Ha.
    repeat split; try assumption.
    intros Hlt2.
    assert (Hr2 : reusable E (tick w) = true)
      by (apply (reusable_intro (tick w) tok expiry); assumption).
    rewrite (getAccessToken_cached (tick w) Hr2). cbn [accessToken tick].
    rewrite Ha. reflexivity.
  - intros response tok ttl Hr Hf Hok Hj Hne now.
    eexists. rewrite getAccessToken_paths, Hr, Hf. cbv zeta.
    rewrite Hok, Hj. cbn [access_token expires_in new_expiry].
    split; [reflexivity |].
    split; [reflexivity |].
    split; [reflexivity |].
    intros Hlt.
    split; [| reflexivity].
    match goal with |- getAccessToken E ?w1 = _ =>
      assert (Hr1 : reusable E w1 = true)
        by (apply (reusable_intro w1 tok (now + ttl * 1000 - 60000));
            [reflexivity | assumption | reflexivity | exact Hlt]);
      rewrite (getAccessToken_cached w1 Hr1)
    end.
    reflexivity.
  - intros Hfalsy. rewrite getAccessToken_paths. unfold reusable.
    rewrite Hfalsy. cbn [andb]. cbv zeta.
    destruct (fetch E (network w) (token_request E)) as [reason | response];
      [reflexivity |].
    destruct (Response.ok response); [| reflexivity].
    destruct (Response.json response) as [data |]; [| reflexivity].
    destruct (is_null data); reflexivity.
Qed.

(** C9.  When [getAccessToken] throws, the cached token and its expiry
    instant are exactly what they were before the call; it does throw
    whenever it attempts the credential exchange and the exchange fails
    (rejected, non-2xx, a body that is not JSON, or the body [null]); and
    these are the only ways it throws.  The world left behind differs
    only in the clock count and the request log, so a later call starts
    from the same token state. *)
Theorem failed_exchange_keeps_token_state (w : World) :
  (forall e w',
      getAccessToken E w = (Thrown e, w') ->
      accessToken w' = accessToken w /\ tokenExpiry w' = tokenExpiry w)
  /\ (reusable E w = false ->
      exchange_fails (fetch E (network w) (token_request E)) = true ->
      exists e,
        getAccessToken E w = (Thrown e, logged (token_request E) (tick w))
        /\ accessToken (logged (token_request E) (tick w)) = accessToken w
        /\ tokenExpiry (logged (token_request E) (tick w)) = tokenExpiry w
        /\ reusable E (logged (token_request E) (tick w))
           = truthy_string (accessToken w)
             && expiry_after (tokenExpiry w) (Date_now E (S (clock w))))
  /\ (forall e w',
        getAccessToken E w = (Thrown e, w') ->
        reusable E w = false
        /\ exchange_fails (fetch E (network w) (token_request E)) = true).
Proof.
  split; [| split].
  - intros e w' H. apply getAccessToken_throws in H as [_ ->].
    split; reflexivity.
  - intros Hr Hf. rewrite getAccessToken_paths, Hr. cbv zeta.
    destruct (fetch E (network w) (token_request E)) as [reason | response].
    + eexists; repeat split.
    + cbn in Hf. destruct (Response.ok response).
      * destruct (Response.json response) as [data |].
        -- cbn in Hf. rewrite Hf. eexists; repeat split.
        -- eexists; repeat split.
      * eexists; repeat split.
  - intros e w'. rewrite getAccessToken_paths.
    destruct (reusable E w); [discriminate |]. cbv zeta.
    destruct (fetch E (network w) (token_request E)) as [reason | response];
      [intros _; split; reflexivity |].
    cbn [exchange_fails].
    destruct (Response.ok response); [| intros _; split; reflexivity].
    destruct (Response.json response) as [data |]; [| intros _; split; reflexivity].
    destruct (is_null data); [intros _; split; reflexivity | discriminate].
Qed.

(** *** Gateway *)

Lemma makeAmadeusRequest_paths (endpoint method : string)
    (q : option (list (string * string))) (b : option BookingBody.t) (w : World) :
  makeAmadeusRequest E endpoint method q b w =
  match getAccessToken E w with
  | (Thrown e, w1) => (Thrown e, w1)
  | (Returned token, w1) =>
      let options := request_options endpoint method q b token in
      match fetch E (network w1) options with
      | Rejected reason => (Thrown (FetchError reason), logged options w1)
      | Resolved response =>
          if Response.ok response then
            match Response.json response with
            | Some j => (Returned j, logged options w1)
            | None => (Thrown JsonSyntaxError, logged options w1)
            end
          else (Thrown (ApiError (Response.status response)
                                 (Response.statusText response)
                                 (Response.text response)), logged options w1)
      end
  end.
Proof.
  unfold makeAmadeusRequest, bind.
  destruct (getAccessToken E w) as [[token | e] w1]; [| reflexivity].
  rewrite rethrow_id. unfold bind, fetch_. cbv zeta.
  destruct (fetch E (network w1) _) as [reason | response]; [reflexivity |].
  destruct (Response.ok response); cbn [negb]; [| reflexivity].
  unfold json_. destruct (Response.json response); reflexivity.
Qed.

(** The gateway throws gateway errors only. *)
Lemma makeAmadeusRequest_throws (endpoint method : string)
    (q : option (list (string * string))) (b : option BookingBody.t)
    (w w' : World) (e : Error) :
  makeAmadeusRequest E endpoint method q b w = (Thrown e, w') ->
  gateway_error e = true.
Proof.
  rewrite makeAmadeusRequest_paths.
  destruct (getAccessToken E w) as [[token | e0] w1] eqn:Ht.
  - cbv zeta. destruct (fetch E (network w1) _) as [reason | response].
    + intros H; inversion H; reflexivity.
    + destruct (Response.ok response).
      * destruct (Response.json response); intros H; inversion H; reflexivity.
      * intros H; inversion H; reflexivity.
  - intros H; inversion H; subst.
    apply getAccessToken_throws in Ht. tauto.
Qed.


Lemma makeOffersRequest_throws (params : HotelSearchParams.t)
    (ids : list (option string)) (w w' : World) (e : Error) :
  makeOffersRequest E params ids w = (Thrown e, w') -> gateway_error e = true.
Proof.
  unfold makeOffersRequest. rewrite rethrow_id. apply makeAmadeusRequest_throws.
Qed.

(** *** Discovery *)

(** All paths of [hotelSearchImplementation], in terms of the listing
    call and the offers call. *)
Lemma hotelSearchImplementation_paths (params : HotelSearchParams.t) (w : World) :
  hotelSearchImplementation E params w =
  match hotelList E (cityOnly (HotelSearchParams.cityCode params)) w with
  | (Thrown e, w1) => (Thrown e, w1)
  | (Returned body, w1) =>
      if is_null body then (Thrown (TypeError_null "data"), w1)
      else
        match data_hotels body with
        | None | Some [] =>
            (Thrown (NoHotelsFound (HotelSearchParams.cityCode params)), w1)
        | Some data =>
            match hotelIds_of (hotelsToCheck_of
                    (filteredHotels_of (HotelSearchParams.hotelName params) data)) with
            | [] => (Thrown NoValidHotelIds, w1)
            | i :: ids => makeOffersRequest E params (i :: ids) w1
            end
        end
  end.
Proof.
  unfold hotelSearchImplementation. rewrite rethrow_id. unfold bind, property.
  destruct (hotelList E _ w) as [[body | e] w1]; [| reflexivity].
  destruct (is_null body); [reflexivity |]. unfold ret at 1.
  destruct (data_hotels body) as [[| h data] |]; try reflexivity.
  cbv zeta.
  destruct (hotelIds_of _); reflexivity.
Qed.

(** A body with a [data] array is not [null]. *)
Lemma listed_not_null (body : Json) (data : list Hotel.t) :
  data_hotels body = Some data -> is_null body = false.
Proof. destruct body; cbn; congruence. Qed.

(** When the real search throws, [hotelSearch] is the mock search run
    from the world the failure left. *)
Lemma hotelSearch_degrades (params : HotelSearchParams.t) (w w1 : World) (e : Error) :
  hotelSearchImplementation E params w = (Thrown e, w1) ->
  hotelSearch E params w =
  getMockHotelOffers E (HotelSearchParams.cityCode params)
                       (HotelSearchParams.checkInDate params)
                       (HotelSearchParams.checkOutDate params) w1.
Proof. intros H. unfold hotelSearch, try_catch. rewrite H. reflexivity. Qed.

Lemma hotelSearch_real (params : HotelSearchParams.t) (w w1 : World) (j : Json) :
  hotelSearchImplementation E params w = (Returned j, w1) ->
  hotelSearch E params w = (Returned j, w1).
Proof. intros H. unfold hotelSearch, try_catch. rewrite H. reflexivity. Qed.

Lemma filter_none {A} (f : A -> bool) (l : list A) :
  (forall x, In x l -> f x = false) -> filter f l = [].
Proof.
  induction l as [| a l IH]; intros H; [reflexivity |].
  cbn. rewrite (H a (or_introl eq_refl)). apply IH.
  intros x Hx. apply H. right. exact Hx.
Qed.

(** A name filter that matches no hotel leaves the listing as it is. *)
Lemma filteredHotels_fallback (hotelName : option string) (data : list Hotel.t) :
  (forall h, In h data ->
     name_matches (String_toLowerCase (template_string hotelName)) h = false) ->
  filteredHotels_of hotelName data = data.
Proof.
  intros H. unfold filteredHotels_of.
  destruct (truthy_string hotelName); [| reflexivity].
  cbv zeta. rewrite (filter_none _ _ H). reflexivity.
Qed.

(** C3.  If the listing of the city returns at least one hotel and the
    name filter [term] matches none of the returned names (the
    lower-cased substring test of line 508), the filtered list is the
    whole listing, so the identifiers handed on are those of an unfiltered
    call, and the whole discovery-and-offers run is the same as without
    the filter; in particular it does not throw "No hotels found". *)
Theorem unmatched_name_filter_falls_back
    (p : HotelSearchParams.t) (term : string)
    (w w1 : World) (body : Json) (data : list Hotel.t) :
  hotelList E (cityOnly (HotelSearchParams.cityCode p)) w = (Returned body, w1) ->
  data_hotels body = Some data ->
  data <> [] ->
  (forall h, In h data -> name_matches (String_toLowerCase term) h = false) ->
  filteredHotels_of (Some term) data = data
  /\ discovered_ids (Some term) data = discovered_ids None data
  /\ hotelSearchImplementation E (with_hotelName p (Some term)) w
     = hotelSearchImplementation E (with_hotelName p None) w
  /\ (forall c w',
        hotelSearchImplementation E (with_hotelName p (Some term)) w
        <> (Thrown (NoHotelsFound c), w')).
Proof.
  intros Hl Hd Hne Hno.
  pose proof (filteredHotels_fallback (Some term) data Hno) as Hf.
  assert (Hids : discovered_ids (Some term) data = discovered_ids None data)
    by (unfold discovered_ids; rewrite Hf; reflexivity).
  split; [exact Hf |]. split; [exact Hids |].
  assert (Hrun : forall n,
             hotelSearchImplementation E (with_hotelName p n) w =
             match discovered_ids n data with
             | [] => (Thrown NoValidHotelIds, w1)
             | i :: ids => makeOffersRequest E p (i :: ids) w1
             end).
  { intros n. rewrite hotelSearchImplementation_paths.
    cbn [with_hotelName HotelSearchParams.cityCode HotelSearchParams.hotelName].
    rewrite Hl, (listed_not_null _ _ Hd), Hd. destruct data as [| h data']; [congruence |].
    fold (discovered_ids n (h :: data')).
    destruct (discovered_ids n (h :: data')); reflexivity. }
  split.
  - rewrite (Hrun (Some term)), (Hrun None), Hids. reflexivity.
  - intros c w' H. rewrite (Hrun (Some term)) in H.
    destruct (discovered_ids (Some term) data); [discriminate |].
    apply makeOffersRequest_throws in H. discriminate.
Qed.


Lemma In_firstn {A} (n : nat) (l : list A) (x : A) :
  In x (firstn n l) -> In x l.
Proof.
  revert l. induction n as [| n IH]; intros [| a l] H; cbn in H; try contradiction.
  destruct H as [-> | H]; [left; reflexivity | right; apply IH; exact H].
Qed.

Lemma firstn_5_length {A} (l : list A) : (length (firstn 5 l) <= 5)%nat.
Proof. rewrite length_firstn. apply Nat.le_min_l. Qed.

Lemma filter_length_le {A} (f : A -> bool) (l : list A) :
  (length (filter f l) <= length l)%nat.
Proof.
  induction l as [| a l IH]; cbn; [lia |].
  destruct (f a); cbn; lia.
Qed.

(** At most five identifiers reach the offers query. *)
Lemma discovered_ids_at_most_5 (hotelName : option string) (data : list Hotel.t) :
  (length (discovered_ids hotelName data) <= 5)%nat.
Proof.
  unfold discovered_ids, hotelIds_of, hotelsToCheck_of.
  eapply Nat.le_trans; [apply filter_length_le |].
  rewrite length_map. apply firstn_5_length.
Qed.

Lemma filter_all {A} (f : A -> bool) (l : list A) :
  (forall x, In x l -> f x = true) -> filter f l = l.
Proof.
  induction l as [| a l IH]; intros H; [reflexivity |].
  cbn. rewrite (H a (or_introl eq_refl)). f_equal. apply IH.
  intros x Hx. apply H. right. exact Hx.
Qed.

(** C10.  The listing is cut to its first five (filtered) hotels before
    the hotels without identifier are dropped.  So a listing whose first
    hotel has no identifier and whose next five or more all have one
    yields four identifiers, although five hotels with an identifier were
    listed; and when none of the first five has an identifier the real
    search throws "Could not extract valid hotel IDs", which sends
    [hotelSearch] to the mock data, although the listing is not empty. *)
Theorem truncation_precedes_id_filter (p : HotelSearchParams.t) (w : World) :
  (forall filtered,
      hotelIds_of (hotelsToCheck_of filtered)
      = filter truthy_string (map Hotel.hotelId (firstn 5 filtered)))
  /\ (forall h rest,
        truthy_string (Hotel.hotelId h) = false ->
        (forall x, In x rest -> truthy_string (Hotel.hotelId x) = true) ->
        (5 <= length rest)%nat ->
        length (hotelIds_of (hotelsToCheck_of (h :: rest))) = 4%nat
        /\ (5 <= length (filter truthy_string (map Hotel.hotelId (h :: rest))))%nat)
  /\ (forall body w1 data,
        hotelList E (cityOnly (HotelSearchParams.cityCode p)) w = (Returned body, w1) ->
        data_hotels body = Some data ->
        data <> [] ->
        (forall h,
           In h (firstn 5 (filteredHotels_of (HotelSearchParams.hotelName p) data)) ->
           truthy_string (Hotel.hotelId h) = false) ->
        hotelSearchImplementation E p w = (Thrown NoValidHotelIds, w1)
        /\ hotelSearch E p w
           = getMockHotelOffers E (HotelSearchParams.cityCode p)
                                  (HotelSearchParams.checkInDate p)
                                  (HotelSearchParams.checkOutDate p) w1).
Proof.
  split; [reflexivity |].
  split.
  - intros h rest Hh Hrest Hlen.
    assert (Hmap : forall l, (forall x, In x l -> truthy_string (Hotel.hotelId x) = true) ->
                        filter truthy_string (map Hotel.hotelId l) = map Hotel.hotelId l).
    { intros l Hl. apply filter_all. intros o Ho.
      apply in_map_iff in Ho as [x [<- Hx]]. apply Hl. exact Hx. }
    split.
    + unfold hotelIds_of, hotelsToCheck_of.
      change (firstn 5 (h :: rest)) with (h :: firstn 4 rest).
      cbn [map filter]. rewrite Hh.
      rewrite Hmap.
      * rewrite length_map, length_firstn. lia.
      * intros x Hx. apply Hrest. apply (In_firstn 4 rest x Hx).
    + cbn [map filter]. rewrite Hh, (Hmap rest Hrest), length_map. exact Hlen.
  - intros body w1 data Hl Hd Hne Hnoid.
    assert (H : hotelSearchImplementation E p w = (Thrown NoValidHotelIds, w1)).
    { rewrite hotelSearchImplementation_paths, Hl, (listed_not_null _ _ Hd), Hd.
      destruct data as [| h data']; [congruence |].
      unfold hotelIds_of, hotelsToCheck_of.
      rewrite filter_none; [reflexivity |].
      intros o Ho. apply in_map_iff in Ho as [x [<- Hx]]. apply Hnoid. exact Hx. }
    split; [exact H |].
    apply (hotelSearch_degrades p w w1 NoValidHotelIds H).
Qed.

(** *** The request log *)

Lemma extends_same (P : Request.t -> Prop) (w w' : World) :
  network w' = network w -> extends_log P w w'.
Proof.
  intros H. exists []. rewrite app_nil_r. split; [exact H | constructor].
Qed.

Lemma extends_trans (P : Request.t -> Prop) (w w1 w2 : World) :
  extends_log P w w1 -> extends_log P w1 w2 -> extends_log P w w2.
Proof.
  intros [a1 [H1 F1]] [a2 [H2 F2]]. exists (a1 ++ a2)%list.
  rewrite H2, H1, app_assoc. split; [reflexivity |].
  apply Forall_app. split; assumption.
Qed.

Lemma extends_weaken (P Q : Request.t -> Prop) (w w' : World) :
  (forall r, P r -> Q r) -> extends_log P w w' -> extends_log Q w w'.
Proof.
  intros HPQ [a [H F]]. exists a. split; [exact H |].
  eapply Forall_impl; [exact HPQ | exact F].
Qed.

Lemma extends_one (P : Request.t -> Prop) (w w' : World) (r : Request.t) :
  network w' = (network w ++ [r])%list -> P r -> extends_log P w w'.
Proof.
  intros H HP. exists [r]. split; [exact H |]. constructor; [exact HP | constructor].
Qed.

Lemma getAccessToken_log (w : World) :
  extends_log (fun r => Request.url r = token_url) w (snd (getAccessToken E w)).
Proof.
  rewrite getAccessToken_paths.
  destruct (reusable E w); [apply extends_same; reflexivity |].
  cbv zeta.
  destruct (fetch E (network w) (token_request E)) as [reason | response].
  - eapply extends_one; reflexivity.
  - destruct (Response.ok response).
    + destruct (Response.json response) as [data |];
        [destruct (is_null data) |]; eapply extends_one; reflexivity.
    + eapply extends_one; reflexivity.
Qed.

Lemma makeAmadeusRequest_log (endpoint method : string)
    (q : option (list (string * string))) (b : option BookingBody.t) (w : World) :
  extends_log
    (fun r => Request.url r = token_url
              \/ (Request.url r = api_base ++ endpoint /\ Request.query r = q))
    w (snd (makeAmadeusRequest E endpoint method q b w)).
Proof.
  rewrite makeAmadeusRequest_paths.
  pose proof (getAccessToken_log w) as Ht.
  destruct (getAccessToken E w) as [[token | e] w1]; cbn [snd] in Ht.
  - eapply extends_trans.
    + eapply extends_weaken; [| exact Ht]. intros r Hr. left. exact Hr.
    + cbv zeta.
      destruct (fetch E (network w1) _) as [reason | response].
      * eapply extends_one; [reflexivity |]. right. split; reflexivity.
      * destruct (Response.ok response).
        -- destruct (Response.json response);
             (eapply extends_one; [reflexivity |]; right; split; reflexivity).
        -- eapply extends_one; [reflexivity |]. right. split; reflexivity.
  - eapply extends_weaken; [| exact Ht]. intros r Hr. left. exact Hr.
Qed.

Lemma hotelList_log (params : HotelListParams.t) (w : World) :
  extends_log (fun r => Request.url r = token_url \/ Request.url r = listing_url)
              w (snd (hotelList E params w)).
Proof.
  unfold hotelList. rewrite rethrow_id.
  eapply extends_weaken; [| apply makeAmadeusRequest_log].
  intros r [H | [H _]]; [left | right]; exact H.
Qed.

(** The mock constructors issue no request. *)
Lemma cancellationDeadline_world (checkInDate : string) (w : World) :
  snd (cancellationDeadline E checkInDate w) = w.
Proof.
  unfold cancellationDeadline.
  destruct (Date_of_string E checkInDate) as [t |]; [| reflexivity].
  destruct (TimeClip (t - 86400000 * 3)); reflexivity.
Qed.

Lemma mockOffer_network (ci co : string) (h : Hotel.t) (w : World) :
  network (snd (mockOffer E ci co h w)) = network w.
Proof.
  unfold mockOffer, bind, Date_now_, Math_random_, ret.
  destruct (Hotel.hotelId h) as [[| c r] |]; cbn [tick drawn];
    match goal with
    | |- context [cancellationDeadline E ci ?w0] =>
        pose proof (cancellationDeadline_world ci w0) as Hw;
        destruct (cancellationDeadline E ci w0) as [[d | e] w'];
        cbn [snd] in Hw; subst w'; reflexivity
    end.
Qed.

Lemma Array_map_network {A B} (f : A -> Async B) (l : list A) :
  (forall a w, network (snd (f a w)) = network w) ->
  forall w, network (snd (Array_map f l w)) = network w.
Proof.
  intros Hf. induction l as [| a l IH]; intros w; [reflexivity |].
  cbn [Array_map]. unfold bind.
  pose proof (Hf a w) as Ha.
  destruct (f a w) as [[y | e] w1]; cbn [snd] in Ha; [| exact Ha].
  pose proof (IH w1) as Hl.
  destruct (Array_map f l w1) as [[ys | e] w2]; cbn [snd] in Hl |- *;
    unfold ret; cbn [snd]; congruence.
Qed.

Lemma basicMock_network (city ci co : string) (w : World) :
  network (snd (basicMock E city ci co w)) = network w.
Proof.
  unfold basicMock, bind, Date_now_, ret.
  pose proof (cancellationDeadline_world ci (tick w)) as Hw.
  destruct (cancellationDeadline E ci (tick w)) as [[d | e] w'];
    cbn [snd] in Hw; subst w'; reflexivity.
Qed.

Lemma getMockHotelOffers_log (city ci co : string) (w : World) :
  extends_log (fun r => Request.url r = token_url \/ Request.url r = listing_url)
              w (snd (getMockHotelOffers E city ci co w)).
Proof.
  unfold getMockHotelOffers, try_catch, bind.
  pose proof (hotelList_log (cityOnly city) w) as Hl.
  destruct (hotelList E (cityOnly city) w) as [[body | e] w1]; cbn [snd] in Hl.
  - pose proof (Array_map_network (mockOffer E ci co) (data_or_empty body)
                  (mockOffer_network ci co) w1) as Hm.
    destruct (Array_map (mockOffer E ci co) (data_or_empty body) w1) as [[offers | e] w2];
      cbn [snd] in Hm.
    + unfold ret. cbn [snd]. eapply extends_trans; [exact Hl |].
      apply extends_same. exact Hm.
    + pose proof (basicMock_network city ci co w2) as Hb.
      destruct (basicMock E city ci co w2) as [[b | e'] w3]; cbn [snd] in Hb |- *;
        unfold ret; cbn [snd];
        (eapply extends_trans; [exact Hl |]; apply extends_same; congruence).
  - pose proof (basicMock_network city ci co w1) as Hb.
    destruct (basicMock E city ci co w1) as [[b | e'] w3]; cbn [snd] in Hb |- *;
      unfold ret; cbn [snd];
      (eapply extends_trans; [exact Hl |]; apply extends_same; congruence).
Qed.

Lemma token_url_not_offers : token_url <> offers_url.
Proof. intros H. apply String.eqb_eq in H. vm_compute in H. discriminate. Qed.

Lemma listing_url_not_offers : listing_url <> offers_url.
Proof. intros H. apply String.eqb_eq in H. vm_compute in H. discriminate. Qed.

Lemma hotelSearchImplementation_log (p : HotelSearchParams.t) (w : World) :
  extends_log (capped_offers_request E p w) w
              (snd (hotelSearchImplementation E p w)).
Proof.
  assert (Hskip : forall r,
             Request.url r = token_url \/ Request.url r = listing_url ->
             capped_offers_request E p w r).
  { intros r [H | H] Hu; exfalso; rewrite H in Hu;
      [exact (token_url_not_offers Hu) | exact (listing_url_not_offers Hu)]. }
  rewrite hotelSearchImplementation_paths.
  pose proof (hotelList_log (cityOnly (HotelSearchParams.cityCode p)) w) as Hl.
  destruct (hotelList E (cityOnly (HotelSearchParams.cityCode p)) w)
    as [[body | e] w1] eqn:Hlist; cbn [snd] in Hl.
  - apply (extends_weaken _ _ _ _ Hskip) in Hl.
    destruct (is_null body); [exact Hl |].
    destruct (data_hotels body) as [[| h data'] |] eqn:Hd; try exact Hl.
    fold (discovered_ids (HotelSearchParams.hotelName p) (h :: data')).
    destruct (discovered_ids (HotelSearchParams.hotelName p) (h :: data'))
      as [| i ids] eqn:Hids; [exact Hl |].
    eapply extends_trans; [exact Hl |].
    unfold makeOffersRequest. rewrite rethrow_id.
    eapply extends_weaken; [| apply makeAmadeusRequest_log].
    intros r [Hr | [_ Hq]] Hu.
    + exfalso. rewrite Hr in Hu. exact (token_url_not_offers Hu).
    + exists body, w1, (h :: data'). rewrite Hids.
      repeat split; try assumption.
      * left. reflexivity.
      * rewrite <- Hids. apply discovered_ids_at_most_5.
  - apply (extends_weaken _ _ _ _ Hskip) in Hl. exact Hl.
Qed.

(** C4.  Every request that [hotelSearch] sends to the offers endpoint
    carries, under [hotelIds], the identifiers discovered from the
    listing: those of the first five hotels, in listing order, of the
    name-filtered listing, hence at most five. *)
Theorem offers_request_carries_at_most_5_ids (p : HotelSearchParams.t) (w : World) :
  extends_log (capped_offers_request E p w) w (snd (hotelSearch E p w))
  /\ (forall hotelName data,
        discovered_ids hotelName data
        = filter truthy_string
            (map Hotel.hotelId (firstn 5 (filteredHotels_of hotelName data)))
        /\ (length (discovered_ids hotelName data) <= 5)%nat).
Proof.
  split.
  - pose proof (hotelSearchImplementation_log p w) as Hi.
    unfold hotelSearch, try_catch.
    destruct (hotelSearchImplementation E p w) as [[j | e] w1]; cbn [snd] in Hi |- *;
      [exact Hi |].
    eapply extends_trans; [exact Hi |].
    eapply extends_weaken; [| apply getMockHotelOffers_log].
    intros r [H | H] Hu; exfalso; rewrite H in Hu;
      [exact (token_url_not_offers Hu) | exact (listing_url_not_offers Hu)].
  - intros hotelName data. split; [reflexivity | apply discovered_ids_at_most_5].
Qed.

(** *** Ratings *)

(** A falsy number (a zero or NaN) is not at least five. *)
Lemma falsy_number_below_5 (r : float) :
  truthy_number (Some r) = false -> PrimFloat.leb 5%float r = false.
Proof.
  unfold truthy_number, PrimFloat.is_nan.
  rewrite FloatAxioms.leb_spec, !FloatAxioms.eqb_spec.
  change (Prim2SF 0%float) with (S754_zero false).
  change (Prim2SF 5%float) with (S754_finite false 5629499534213120 (-50)).
  destruct (Prim2SF r) as [s | s | | s m e]; cbn; try reflexivity; try discriminate.
  - destruct s; discriminate.
  - destruct s; cbn; rewrite Z.compare_refl, ?Pos.compare_refl; cbn;
      rewrite ?Pos.compare_refl; discriminate.
Qed.

Lemma five_stars_of_rating_or_4 (h : Hotel.t) :
  is_five_star (rating_or_4 h) = has_five_stars h.
Proof.
  unfold is_five_star, rating_or_4, has_five_stars.
  destruct (Hotel.rating h) as [r |]; [| reflexivity].
  destruct (truthy_number (Some r)) eqn:Ht; [reflexivity |].
  rewrite (falsy_number_below_5 r Ht). reflexivity.
Qed.

(** *** Search substitute *)

Lemma cancellationDeadline_valid (checkInDate : string) (t : Z) (w : World) :
  Date_of_string E checkInDate = Some t ->
  - maxTime <= t - 86400000 * 3 ->
  cancellationDeadline E checkInDate w
  = (Returned (Date_toISOString (t - 86400000 * 3)), w).
Proof.
  intros Ht Hlo. unfold cancellationDeadline. rewrite Ht.
  assert (Hhi : Z.abs t <= maxTime).
  { unfold Date_of_string in Ht. destruct (Date_parse E checkInDate) as [t0 |];
      [| discriminate].
    unfold TimeClip in Ht. destruct (Z.abs t0 <=? maxTime) eqn:Hc; [| discriminate].
    inversion Ht; subst. apply Z.leb_le. exact Hc. }
  unfold TimeClip.
  replace (Z.abs (t - 86400000 * 3) <=? maxTime) with true; [reflexivity |].
  symmetry. apply Z.leb_le. unfold maxTime in *. lia.
Qed.

Lemma mockOffer_returns (ci co : string) (t : Z) (h : Hotel.t) (w : World) :
  Date_of_string E ci = Some t ->
  - maxTime <= t - 86400000 * 3 ->
  exists ho w',
    mockOffer E ci co h w = (Returned ho, w')
    /\ substitute_for (rating_or_4 h) (has_five_stars h)
                      (Date_toISOString (t - 86400000 * 3)) h ho.
Proof.
  intros Ht Hlo. unfold mockOffer, bind, Date_now_, Math_random_, ret.
  rewrite <- five_stars_of_rating_or_4.
  destruct (Hotel.hotelId h) as [[| c r] |];
    rewrite (cancellationDeadline_valid ci t _ Ht Hlo);
    (eexists; eexists; split; [reflexivity |]);
    (split; [reflexivity |]);
    (eexists; split; [reflexivity |]);
    (split; [repeat split |]);
    (split; [reflexivity |]);
    (split; [eexists; split; reflexivity |]);
    split; reflexivity.
Qed.

Lemma Array_map_returns {A B} (f : A -> Async B) (R : A -> B -> Prop) (l : list A) :
  (forall a w, exists b w', f a w = (Returned b, w') /\ R a b) ->
  forall w, exists bs w', Array_map f l w = (Returned bs, w') /\ Forall2 R l bs.
Proof.
  intros Hf. induction l as [| a l IH]; intros w.
  - exists [], w. split; [reflexivity | constructor].
  - destruct (Hf a w) as [b [w1 [Hb HR]]].
    destruct (IH w1) as [bs [w2 [Hbs HRs]]].
    exists (b :: bs), w2. cbn [Array_map]. unfold bind. rewrite Hb, Hbs.
    split; [reflexivity | constructor; assumption].
Qed.

(** C1, as amended.  When the real search has thrown and the listing
    call of the mock search returns the hotels [hotels], and the
    check-in date is a valid date whose third day before is one too,
    [hotelSearch] returns one entry per hotel, in listing order: the hotel
    with one offer whose price is computed from [hotel.rating || 4] (the
    hotel's rating when it is a non-zero number, else 4), whose room type
    is SUITE exactly when the hotel's own rating is at least 5, whose
    cancellation deadline is the check-in instant minus three days, and
    whose check-in and check-out times are 15:00 and 11:00.  For the star
    ratings 1 to 5 the printed totals and taxes agree with base * 1.1 and
    base * 0.1 to two decimals; rating 5 prints base 350 and total
    385.00000000000006. *)
Theorem substitute_offers_priced_from_rating
    (p : HotelSearchParams.t) (w w1 w2 : World) (e : Error)
    (body : Json) (hotels : list Hotel.t) (t : Z) :
  hotelSearchImplementation E p w = (Thrown e, w1) ->
  hotelList E (cityOnly (HotelSearchParams.cityCode p)) w1 = (Returned body, w2) ->
  data_hotels body = Some hotels ->
  Date_of_string E (HotelSearchParams.checkInDate p) = Some t ->
  - maxTime <= t - 86400000 * 3 ->
  (exists offers w',
      hotelSearch E p w = (Returned (HotelOffersJson offers), w')
      /\ Forall2 (fun h ho =>
                    substitute_for (rating_or_4 h) (has_five_stars h)
                                   (Date_toISOString (t - 86400000 * 3)) h ho)
                 hotels offers)
  /\ map price_strings [1; 2; 3; 4; 5]%float
     = [("150", "165", "15");
        ("200", "220.00000000000003", "20");
        ("250", "275", "25");
        ("300", "330", "30");
        ("350", "385.00000000000006", "35")].
Proof.
  intros Hthrow Hl Hd Ht Hlo. split; [| vm_compute; reflexivity].
  rewrite (hotelSearch_degrades p w w1 e Hthrow).
  unfold getMockHotelOffers, try_catch, bind. rewrite Hl.
  unfold data_or_empty. rewrite Hd.
  destruct (Array_map_returns
              (mockOffer E (HotelSearchParams.checkInDate p)
                           (HotelSearchParams.checkOutDate p))
              (fun h ho => substitute_for (rating_or_4 h) (has_five_stars h)
                             (Date_toISOString (t - 86400000 * 3)) h ho)
              hotels
              (fun a w0 => mockOffer_returns _ _ t a w0 Ht Hlo) w2)
    as [offers [w' [Hm HF]]].
  rewrite Hm. exists offers, w'. split; [reflexivity | exact HF].
Qed.

(** X4.  With a check-in date that is a valid date (and whose third day
    before is one too) [hotelSearch] never throws: it returns the body of
    the real search, or, when the real search threw, a substitute of the
    search-result shape. *)
Lemma hotelSearch_returns_on_valid_date (p : HotelSearchParams.t) (w : World) (t : Z) :
  Date_of_string E (HotelSearchParams.checkInDate p) = Some t ->
  - maxTime <= t - 86400000 * 3 ->
  exists j w',
    hotelSearch E p w = (Returned j, w')
    /\ (hotelSearchImplementation E p w = (Returned j, w')
        \/ exists e w1 offers,
             hotelSearchImplementation E p w = (Thrown e, w1)
             /\ j = HotelOffersJson offers).
Proof.
  intros Ht Hlo.
  destruct (hotelSearchImplementation E p w) as [[j | e] w1] eqn:Hi.
  - exists j, w1. split; [apply hotelSearch_real; exact Hi | left; reflexivity].
  - rewrite (hotelSearch_degrades p w w1 e Hi).
    unfold getMockHotelOffers, try_catch, bind.
    destruct (hotelList E (cityOnly (HotelSearchParams.cityCode p)) w1)
      as [[body | e'] w2] eqn:Hl.
    + destruct (Array_map_returns
                  (mockOffer E (HotelSearchParams.checkInDate p)
                               (HotelSearchParams.checkOutDate p))
                  (fun h ho => substitute_for (rating_or_4 h) (has_five_stars h)
                                 (Date_toISOString (t - 86400000 * 3)) h ho)
                  (data_or_empty body)
                  (fun a w0 => mockOffer_returns _ _ t a w0 Ht Hlo) w2)
        as [offers [w' [Hm HF]]].
      rewrite Hm. exists (HotelOffersJson offers), w'. split; [reflexivity |].
      right. exists e, w1, offers. split; reflexivity.
    + unfold basicMock, bind, Date_now_.
      rewrite (cancellationDeadline_valid _ t _ Ht Hlo). unfold ret.
      eexists; eexists. split; [reflexivity |].
      right. exists e, w1. eexists. split; reflexivity.
Qed.

Lemma cancellationDeadline_invalid (checkInDate : string) (w : World) :
  Date_of_string E checkInDate = None ->
  cancellationDeadline E checkInDate w = (Thrown RangeError_InvalidTime, w).
Proof. intros H. unfold cancellationDeadline. rewrite H. reflexivity. Qed.

(** With a check-in date that is no valid date, a failed real search
    ends in a RangeError whenever the mock search has an offer to build:
    the [catch] branch of [getMockHotelOffers] computes the deadline
    again and throws outside any handler. *)
Lemma hotelSearch_throws_on_invalid_date (p : HotelSearchParams.t)
    (w w1 : World) (e : Error) :
  hotelSearchImplementation E p w = (Thrown e, w1) ->
  Date_of_string E (HotelSearchParams.checkInDate p) = None ->
  (forall body w2,
     hotelList E (cityOnly (HotelSearchParams.cityCode p)) w1 = (Returned body, w2) ->
     data_or_empty body <> []) ->
  exists w', hotelSearch E p w = (Thrown RangeError_InvalidTime, w').
Proof.
  intros Hi Hd Hne. rewrite (hotelSearch_degrades p w w1 e Hi).
  unfold getMockHotelOffers, try_catch, bind.
  destruct (hotelList E (cityOnly (HotelSearchParams.cityCode p)) w1)
    as [[body | e'] w2] eqn:Hl.
  - specialize (Hne body w2 eq_refl).
    destruct (data_or_empty body) as [| h hs]; [congruence |].
    cbn [Array_map]. unfold bind at 1.
    assert (Hm : exists w3, mockOffer E (HotelSearchParams.checkInDate p)
                              (HotelSearchParams.checkOutDate p) h w2
                            = (Thrown RangeError_InvalidTime, w3)).
    { unfold mockOffer, bind, Date_now_, Math_random_, ret.
      destruct (Hotel.hotelId h) as [[| c r] |];
        rewrite (cancellationDeadline_invalid _ _ Hd); eexists; reflexivity. }
    destruct Hm as [w3 ->].
    unfold basicMock, bind, Date_now_.
    rewrite (cancellationDeadline_invalid _ _ Hd). eexists; reflexivity.
  - unfold basicMock, bind, Date_now_.
    rewrite (cancellationDeadline_invalid _ _ Hd). eexists; reflexivity.
Qed.

(** *** Booking *)

Lemma getMockBookingConfirmation_returns (offerId : string) (guests : list Guest.t)
    (p : HotelBookingParams.t) (w : World) :
  offerId = HotelBookingParams.offerId p ->
  guests = HotelBookingParams.guests p ->
  getMockBookingConfirmation E offerId guests w
  = (Returned (BookingJson (fresh_confirmation E (clock w) p)), tick (tick (tick w))).
Proof. intros -> ->. reflexivity. Qed.

Lemma fresh_confirmation_has_ids (n : nat) (p : HotelBookingParams.t) :
  confirmed_with_ids (BookingJson (fresh_confirmation E n p)).
Proof.
  eexists. split; [reflexivity |]. split; cbn; discriminate.
Qed.

(** C7, as amended.  [hotelBooking] never throws.  When the submission
    through the gateway throws, the result is a confirmation with the
    freshly generated identifiers ["BK" + now] and ["PC" + now], both
    non-empty, echoing the guests and the offer identifier; when the
    submission returns, the result is the upstream body as it came. *)
Theorem booking_never_throws (p : HotelBookingParams.t) (w : World) :
  exists j w',
    hotelBooking E p w = (Returned j, w')
    /\ (makeAmadeusRequest E booking_endpoint "POST" None (Some (bookingBody_of p)) w
        = (Returned j, w')
        \/ exists e w1,
             makeAmadeusRequest E booking_endpoint "POST" None
                                (Some (bookingBody_of p)) w
             = (Thrown e, w1)
             /\ j = BookingJson (fresh_confirmation E (clock w1) p)
             /\ w' = tick (tick (tick w1))
             /\ confirmed_with_ids j).
Proof.
  unfold hotelBooking, try_catch. cbv zeta.
  destruct (makeAmadeusRequest E booking_endpoint "POST" None
              (Some (bookingBody_of p)) w) as [[j | e] w1] eqn:Hm.
  - exists j, w1. split; [reflexivity | left; reflexivity].
  - rewrite (getMockBookingConfirmation_returns _ _ p w1 eq_refl eq_refl).
    eexists; eexists. split; [reflexivity |]. right.
    exists e, w1. repeat split; try reflexivity.
    apply fresh_confirmation_has_ids.
Qed.

(** *** Offer identifiers *)

Lemma token_run_all (s : string) :
  all_token_chars s = true -> token_run s = s.
Proof.
  induction s as [| c r IH]; [reflexivity |].
  cbn. intros H. apply andb_prop in H as [Hc Hr].
  rewrite Hc, (IH Hr). reflexivity.
Qed.

Lemma all_token_chars_app (s1 s2 : string) :
  all_token_chars s1 = true -> all_token_chars s2 = true ->
  all_token_chars (s1 ++ s2) = true.
Proof.
  intros H1 H2. induction s1 as [| c r IH]; [exact H2 |].
  cbn in *. apply andb_prop in H1 as [Hc Hr]. rewrite Hc, (IH Hr). reflexivity.
Qed.

Lemma string_of_uint_token_chars (d : Decimal.uint) :
  all_token_chars (NilEmpty.string_of_uint d) = true.
Proof. induction d; cbn; try reflexivity; exact IHd. Qed.

(** The decimal rendering of an integer stays inside the class, the
    minus sign included. *)
Lemma Z_toString_token_chars (z : Z) : all_token_chars (Z_toString z) = true.
Proof.
  unfold Z_toString, NilZero.string_of_int, NilZero.string_of_uint.
  destruct (Z.to_int z) as [d | d]; destruct d; cbn;
    try reflexivity; apply string_of_uint_token_chars.
Qed.

(** The group captures everything after [OFF-]: the hotel identifier, the
    hyphen and the clock reading. *)
Lemma match_OFF_takes_suffix (hotelId : string) (now : Z) :
  hotelId <> EmptyString ->
  all_token_chars hotelId = true ->
  match_OFF ("OFF-" ++ hotelId ++ "-" ++ Z_toString now)
  = Some (hotelId ++ "-" ++ Z_toString now).
Proof.
  intros Hne Hall.
  assert (Hrest : all_token_chars (hotelId ++ "-" ++ Z_toString now) = true).
  { apply all_token_chars_app; [exact Hall |].
    apply (all_token_chars_app "-"); [reflexivity | apply Z_toString_token_chars]. }
  destruct hotelId as [| c r]; [congruence |].
  cbn [append match_OFF match_OFF_here].
  change (Ascii.eqb (lower_char "O") "o" && Ascii.eqb (lower_char "F") "f"
          && Ascii.eqb (lower_char "F") "f" && Ascii.eqb "-" "-") with true.
  cbv iota.
  change (String c (r ++ String "-" (Z_toString now)))
    with (String c r ++ "-" ++ Z_toString now).
  rewrite (token_run_all _ Hrest). reflexivity.
Qed.

End Facts.

(** ** The statements on concrete runs *)

Lemma cached_token_reused_witness :
  (getAccessToken ritz_env cached_world = (Returned (Some "tok"), tick cached_world)
   /\ getAccessToken ritz_env (tick cached_world)
      = (Returned (Some "tok"), tick (tick cached_world)))
  /\ exists w1,
       getAccessToken ritz_env initial = (Returned (Some "tok"), w1)
       /\ tokenExpiry w1 = Some (1743500000000 + 1799 * 1000 - 60000)
       /\ getAccessToken ritz_env w1 = (Returned (Some "tok"), tick w1)
       /\ network (tick w1) = network w1.
Proof.
  split.
  - destruct (proj1 (cached_token_reused_until_expiry ritz_env cached_world)
                "tok" 1743501739000 eq_refl ltac:(discriminate) eq_refl
                ltac:(vm_compute; reflexivity))
      as [H1 [_ [_ [_ H2]]]].
    split; [exact H1 | apply H2; vm_compute; reflexivity].
  - destruct (proj1 (proj2 (cached_token_reused_until_expiry ritz_env initial))
                (json_response (TokenJson (Some "tok") (Some 1799))) "tok" 1799
                ltac:(vm_compute; reflexivity) ltac:(vm_compute; reflexivity)
                ltac:(vm_compute; reflexivity) ltac:(vm_compute; reflexivity)
                ltac:(discriminate))
      as [w1 [H1 [_ [H3 H4]]]].
    exists w1. split; [exact H1 |]. split; [exact H3 |].
    apply H4. inversion H1. vm_compute. reflexivity.
Defined.

Lemma failed_exchange_witness :
  (exists e,
     getAccessToken offline_env cached_world_expired
     = (Thrown e, logged (token_request offline_env) (tick cached_world_expired))
     /\ accessToken (logged (token_request offline_env) (tick cached_world_expired))
        = Some "tok"
     /\ tokenExpiry (logged (token_request offline_env) (tick cached_world_expired))
        = Some 1743400000000)
  /\ (exists e,
        getAccessToken null_body_env cached_world_expired
        = (Thrown e, logged (token_request null_body_env) (tick cached_world_expired))
        /\ accessToken (logged (token_request null_body_env) (tick cached_world_expired))
           = Some "tok"
        /\ tokenExpiry (logged (token_request null_body_env) (tick cached_world_expired))
           = Some 1743400000000).
Proof.
  split.
  - destruct (proj1 (proj2 (failed_exchange_keeps_token_state
                              offline_env cached_world_expired))
                ltac:(vm_compute; reflexivity) ltac:(vm_compute; reflexivity))
      as [e [H1 [H2 [H3 _]]]].
    exists e. split; [exact H1 |]. split; [exact H2 | exact H3].
  - destruct (proj1 (proj2 (failed_exchange_keeps_token_state
                              null_body_env cached_world_expired))
                ltac:(vm_compute; reflexivity) ltac:(vm_compute; reflexivity))
      as [e [H1 [H2 [H3 _]]]].
    exists e. split; [exact H1 |]. split; [exact H2 | exact H3].
Defined.

Lemma unmatched_name_filter_witness :
  filteredHotels_of (Some "Hilton") [ritz] = [ritz]
  /\ discovered_ids (Some "Hilton") [ritz] = discovered_ids None [ritz]
  /\ hotelSearchImplementation ritz_env (with_hotelName paris_query (Some "Hilton")) initial
     = hotelSearchImplementation ritz_env (with_hotelName paris_query None) initial.
Proof.
  destruct (unmatched_name_filter_falls_back ritz_env paris_query "Hilton"
              initial (snd (hotelList ritz_env (cityOnly "PAR") initial))
              (HotelListJson (Some [ritz])) [ritz]
              ltac:(vm_compute; reflexivity) eq_refl ltac:(discriminate)
              ltac:(intros h [<- | []]; vm_compute; reflexivity))
    as [H1 [H2 [H3 _]]].
  split; [exact H1 |]. split; [exact H2 | exact H3].
Defined.


Lemma truncation_precedes_id_filter_witness :
  (length (hotelIds_of (hotelsToCheck_of (anonymous_hotel :: five_hotels))) = 4%nat
   /\ (5 <= length (filter truthy_string
                      (map Hotel.hotelId (anonymous_hotel :: five_hotels))))%nat)
  /\ hotelSearchImplementation anonymous_env paris_query initial
     = (Thrown NoValidHotelIds, snd (hotelList anonymous_env (cityOnly "PAR") initial)).
Proof.
  pose proof (truncation_precedes_id_filter anonymous_env paris_query initial)
    as [_ [H2 H3]].
  split.
  - apply H2.
    + reflexivity.
    + intros x Hx. cbn in Hx. repeat destruct Hx as [<- | Hx]; try reflexivity.
      contradiction.
    + cbn. lia.
  - apply (H3 (HotelListJson (Some [anonymous_hotel]))
              (snd (hotelList anonymous_env (cityOnly "PAR") initial))
              [anonymous_hotel]).
    + vm_compute; reflexivity.
    + reflexivity.
    + discriminate.
    + intros h Hh. cbn in Hh. destruct Hh as [<- | []]. reflexivity.
Defined.

Lemma substitute_offers_witness :
  exists offers w',
    hotelSearch ritz_env paris_query initial = (Returned (HotelOffersJson offers), w')
    /\ Forall2 (fun h ho =>
                  substitute_for (rating_or_4 h) (has_five_stars h)
                                 (Date_toISOString (1743465600000 - 86400000 * 3)) h ho)
               [ritz] offers.
Proof.
  refine (proj1 (substitute_offers_priced_from_rating ritz_env paris_query initial
                   (snd (hotelSearchImplementation ritz_env paris_query initial))
                   (snd (hotelList ritz_env (cityOnly "PAR")
                           (snd (hotelSearchImplementation ritz_env paris_query initial))))
                   (ApiError 500 "Internal Server Error" "{ errors }")
                   (HotelListJson (Some [ritz])) [ritz] 1743465600000 _ _ _ _ _)).
  - vm_compute; reflexivity.
  - vm_compute; reflexivity.
  - reflexivity.
  - vm_compute; reflexivity.
  - vm_compute; discriminate.
Defined.

(** The end-to-end example: one listed hotel of rating 5 behind a failing
    offers endpoint gives one SUITE offer with base 350 and total
    385.00000000000006, cancellable until 29 March. *)
Example paris_five_star_substitute :
  exists o w',
    hotelSearch ritz_env paris_query initial
    = (Returned (HotelOffersJson
                   [ {| HotelOffers.hotel := ritz;
                        HotelOffers.available := true;
                        HotelOffers.offers := [o] |} ]), w')
    /\ Room.type (Offer.room o) = "SUITE"
    /\ Price.base (Offer.price o) = "350"
    /\ Price.total (Offer.price o) = "385.00000000000006"
    /\ map Tax.amount (Price.taxes (Offer.price o)) = ["35"]
    /\ map Cancellation.deadline (Policies.cancellations (Offer.policies o))
       = ["2025-03-29T00:00:00.000Z"]
    /\ Policies.checkInOut (Offer.policies o)
       = {| CheckInOut.checkIn := "15:00"; CheckInOut.checkOut := "11:00" |}.
Proof.
  eexists; eexists. split; [vm_compute; reflexivity |].
  repeat split.
Qed.

(** C1 as stated fails on a hotel whose rating is the number 0: the
    default of [hotel.rating || 4] applies, so the offer is priced at base
    300 and not at 100 + 0 * 50. *)
Lemma zero_rating_is_priced_as_four :
  exists ho o w',
    hotelSearch zero_rated_env paris_query initial
    = (Returned (HotelOffersJson [ho]), w')
    /\ HotelOffers.hotel ho = zero_rated
    /\ Hotel.rating zero_rated = Some 0%float
    /\ HotelOffers.offers ho = [o]
    /\ Price.base (Offer.price o) = "300"
    /\ ~ priced_from 0%float (Offer.price o).
Proof.
  eexists; eexists; eexists. split; [vm_compute; reflexivity |].
  split; [reflexivity |]. split; [reflexivity |]. split; [reflexivity |].
  split; [reflexivity |].
  intros [H _]. vm_compute in H. discriminate.
Qed.

(** C6 on a failing input: the offers endpoint answers 500 and the
    check-in date names month 13.  The real search throws, the mock search
    throws a RangeError while building the first offer, its [catch] branch
    throws it again, and [hotelSearch] lets it out. *)
Theorem invalid_check_in_date_escapes_degradation :
  exists w',
    hotelSearch ritz_env bad_date_query initial = (Thrown RangeError_InvalidTime, w')
    /\ fst (hotelSearchImplementation ritz_env bad_date_query initial)
       = Thrown (ApiError 500 "Internal Server Error" "{ errors }").
Proof.
  eexists. split; vm_compute; reflexivity.
Qed.

(** C2 as stated fails when the cached token is the empty string.  The
    first exchange grants it and stores an expiry instant 1739 seconds
    ahead; the call one second later, well before that instant, issues a
    new exchange and returns another token. *)
Lemma empty_cached_token_is_renewed :
  exists w1 w2,
    getAccessToken empty_token_env initial = (Returned (Some EmptyString), w1)
    /\ accessToken w1 = Some EmptyString
    /\ tokenExpiry w1 = Some 1743501739000
    /\ Date_now empty_token_env (clock w1) = 1743500001000
    /\ getAccessToken empty_token_env w1 = (Returned (Some "tok"), w2)
    /\ network w2 = (network w1 ++ [token_request empty_token_env])%list.
Proof.
  eexists; eexists. split; [vm_compute; reflexivity |].
  split; [reflexivity |]. split; [reflexivity |]. split; [reflexivity |].
  split; [vm_compute; reflexivity | reflexivity].
Qed.

(** C7 as stated fails when the booking endpoint answers 200 with a body
    that holds no confirmation: the body is returned as it came. *)
Lemma booking_returns_hollow_body :
  exists w',
    hotelBooking hollow_booking_env booking_example initial
    = (Returned (OtherJson "{}"), w')
    /\ (1 <= length (HotelBookingParams.guests booking_example))%nat
    /\ (1 <= length (HotelBookingParams.payments booking_example))%nat
    /\ ~ confirmed_with_ids (OtherJson "{}").
Proof.
  eexists. split; [vm_compute; reflexivity |].
  split; [cbn; lia |]. split; [cbn; lia |].
  intros [c [H _]]. discriminate.
Qed.

(** C8 on a failing input: the offer of the end-to-end example is
    identified [OFF-HLPAR266-1743500003000]; its detail substitute names
    the hotel [HLPAR266-1743500003000], not [HLPAR266]. *)
Theorem detail_hotel_id_keeps_the_suffix :
  exists o w1 detail w2,
    hotelSearch ritz_env paris_query initial
    = (Returned (HotelOffersJson
                   [ {| HotelOffers.hotel := ritz;
                        HotelOffers.available := true;
                        HotelOffers.offers := [o] |} ]), w1)
    /\ Hotel.hotelId ritz = Some "HLPAR266"
    /\ Offer.id o = "OFF-HLPAR266-1743500003000"
    /\ hotelOffer ritz_env {| HotelOfferParams.offerId := Offer.id o |} w1
       = (Returned (OfferDetailJson detail), w2)
    /\ Hotel.hotelId (OfferDetail.hotel detail) = Some "HLPAR266-1743500003000"
    /\ Hotel.hotelId (OfferDetail.hotel detail) <> Hotel.hotelId ritz.
Proof.
  eexists; eexists; eexists; eexists.
  split; [vm_compute; reflexivity |].
  split; [reflexivity |]. split; [reflexivity |].
  split; [vm_compute; reflexivity |].
  split; [reflexivity | discriminate].
Qed.

(** The discovery of the end-to-end example logs one offers request,
    with the single identifier of the listed hotel. *)
Example paris_offers_request :
  map (fun r => (Request.url r, Request.query r))
      (filter (fun r => String.eqb (Request.url r) offers_url)
              (network (snd (hotelSearch ritz_env paris_query initial))))
  = [ (offers_url,
       Some [("hotelIds", "HLPAR266"); ("checkInDate", "2025-04-01");
             ("checkOutDate", "2025-04-05"); ("adults", "2");
             ("roomQuantity", "1"); ("paymentPolicy", "NONE")]) ].
Proof. vm_compute. reflexivity. Qed.

Lemma offers_request_witness :
  extends_log (capped_offers_request ritz_env paris_query initial) initial
              (snd (hotelSearch ritz_env paris_query initial))
  /\ (length (discovered_ids None (anonymous_hotel :: five_hotels)) <= 5)%nat.
Proof.
  pose proof (offers_request_carries_at_most_5_ids ritz_env paris_query initial)
    as [H1 H2].
  split; [exact H1 | apply (H2 None (anonymous_hotel :: five_hotels))].
Defined.

(** ** Further properties of the program *)

Section Coverage.

Variable E : Env.

Lemma app_one_not_same {A} (l : list A) (x : A) : (l ++ [x])%list <> l.
Proof.
  intros H. apply (f_equal (@length A)) in H. rewrite length_app in H.
  cbn in H. lia.
Qed.

Lemma getAccessToken_network (w : World) :
  network (snd (getAccessToken E w)) = network w
  \/ network (snd (getAccessToken E w)) = (network w ++ [token_request E])%list.
Proof.
  rewrite getAccessToken_paths.
  destruct (reusable E w); [left; reflexivity |]. cbv zeta. right.
  destruct (fetch E (network w) (token_request E)) as [reason | response];
    [reflexivity |].
  destruct (Response.ok response); [| reflexivity].
  destruct (Response.json response) as [data |]; [| reflexivity].
  destruct (is_null data); reflexivity.
Qed.

(** X1.  Footprint of [getAccessToken].  A call reads the clock exactly
    once and never the random source; it logs nothing, or exactly the
    credential exchange; the token it returns is the token it leaves
    cached; and when it logs nothing the cached token and expiry are
    untouched. *)
Theorem getAccessToken_footprint (w : World) :
  clock (snd (getAccessToken E w)) = S (clock w)
  /\ draws (snd (getAccessToken E w)) = draws w
  /\ (network (snd (getAccessToken E w)) = network w
      \/ network (snd (getAccessToken E w)) = (network w ++ [token_request E])%list)
  /\ (forall tok,
        fst (getAccessToken E w) = Returned tok ->
        accessToken (snd (getAccessToken E w)) = tok)
  /\ (network (snd (getAccessToken E w)) = network w ->
      accessToken (snd (getAccessToken E w)) = accessToken w
      /\ tokenExpiry (snd (getAccessToken E w)) = tokenExpiry w).
Proof.
  rewrite getAccessToken_paths.
  destruct (reusable E w) eqn:Hr.
  - cbn. repeat split; try (left; reflexivity). intros tok H. congruence.
  - assert (Hexchange : forall (o : Outcome (option string)) w1,
               network w1 = (network w ++ [token_request E])%list ->
               clock w1 = S (clock w) -> draws w1 = draws w ->
               (forall tok, o = Returned tok -> accessToken w1 = tok) ->
               clock (snd (o, w1)) = S (clock w)
               /\ draws (snd (o, w1)) = draws w
               /\ (network (snd (o, w1)) = network w
                   \/ network (snd (o, w1)) = (network w ++ [token_request E])%list)
               /\ (forall tok, fst (o, w1) = Returned tok -> accessToken (snd (o, w1)) = tok)
               /\ (network (snd (o, w1)) = network w ->
                   accessToken (snd (o, w1)) = accessToken w
                   /\ tokenExpiry (snd (o, w1)) = tokenExpiry w)).
    { intros o w1 Hn Hc Hd Hret. cbn [fst snd].
      split; [exact Hc |]. split; [exact Hd |]. split; [right; exact Hn |].
      split; [exact Hret |].
      intros H. exfalso. rewrite Hn in H. exact (app_one_not_same _ _ H). }
    cbv zeta.
    destruct (fetch E (network w) (token_request E)) as [reason | response].
    + apply Hexchange; try reflexivity. discriminate.
    + destruct (Response.ok response).
      * destruct (Response.json response) as [data |];
          [destruct (is_null data) |];
          apply Hexchange; try reflexivity; try discriminate.
        intros tok H. inversion H. reflexivity.
      * apply Hexchange; try reflexivity. discriminate.
Qed.

(** The requests of one gateway call, exactly. *)
Lemma makeAmadeusRequest_batch (endpoint method : string)
    (q : option (list (string * string))) (b : option BookingBody.t) (w : World) :
  exists l,
    network (snd (makeAmadeusRequest E endpoint method q b w)) = (network w ++ l)%list
    /\ gateway_batch E endpoint method q b l.
Proof.
  rewrite makeAmadeusRequest_paths.
  pose proof (getAccessToken_network w) as Hn.
  destruct (getAccessToken E w) as [[token | e] w1] eqn:Ht; cbn [snd] in Hn.
  - assert (Hlog : forall o, network (snd (o : Outcome Json,
                       logged (request_options endpoint method q b token) w1))
                     = (network w1 ++ [request_options endpoint method q b token])%list)
      by reflexivity.
    assert (Hall : exists l,
               (network w1 ++ [request_options endpoint method q b token])%list
               = (network w ++ l)%list
               /\ gateway_batch E endpoint method q b l).
    { destruct Hn as [-> | ->].
      - eexists. split; [reflexivity |]. right. exists token. left. reflexivity.
      - eexists. rewrite <- app_assoc. split; [reflexivity |].
        right. exists token. right. reflexivity. }
    cbv zeta.
    destruct (fetch E (network w1) _) as [reason | response]; [exact Hall |].
    destruct (Response.ok response); [| exact Hall].
    destruct (Response.json response); exact Hall.
  - cbn [snd]. destruct Hn as [Hn | Hn].
    + exfalso. apply getAccessToken_throws in Ht as [_ ->].
      cbn in Hn. exact (app_one_not_same _ _ Hn).
    + exists [token_request E]. split; [exact Hn | left; reflexivity].
Qed.

Lemma gateway_sends_one_authorized_request_log (endpoint method : string)
    (q : option (list (string * string))) (b : option BookingBody.t) (w : World) :
  (forall e w1,
      getAccessToken E w = (Thrown e, w1) ->
      makeAmadeusRequest E endpoint method q b w = (Thrown e, w1))
  /\ (forall token w1,
        getAccessToken E w = (Returned token, w1) ->
        network (snd (makeAmadeusRequest E endpoint method q b w))
        = (network w1 ++ [request_options endpoint method q b token])%list).
Proof.
  split.
  - intros e w1 Ht. rewrite makeAmadeusRequest_paths, Ht. reflexivity.
  - intros token w1 Ht. rewrite makeAmadeusRequest_paths, Ht. cbv zeta.
    destruct (fetch E (network w1) _) as [reason | response]; [reflexivity |].
    destruct (Response.ok response); [| reflexivity].
    destruct (Response.json response); reflexivity.
Qed.

(** X2.  One gateway call, one attempt.  [makeAmadeusRequest] first asks
    for the token; if that throws, the same error is thrown and no request
    goes to the endpoint; otherwise exactly one request is added after the
    token manager's, whatever the answer (there is no retry).  That
    request goes to the given endpoint with the given method and query,
    carries [Authorization: Bearer <token>] and [Accept], and carries the
    JSON content type exactly when a body is given. *)
Theorem gateway_sends_one_authorized_request (endpoint method : string)
    (q : option (list (string * string))) (b : option BookingBody.t) (w : World) :
  (forall e w1,
      getAccessToken E w = (Thrown e, w1) ->
      makeAmadeusRequest E endpoint method q b w = (Thrown e, w1))
  /\ (forall token w1,
        getAccessToken E w = (Returned token, w1) ->
        let r := request_options endpoint method q b token in
        network (snd (makeAmadeusRequest E endpoint method q b w))
        = (network w1 ++ [r])%list
        /\ Request.url r = api_base ++ endpoint
        /\ Request.method r = method
        /\ Request.query r = q
        /\ In ("Authorization", "Bearer " ++ template_string token) (Request.headers r)
        /\ In ("Accept", "application/json") (Request.headers r)
        /\ (In ("Content-Type", "application/json") (Request.headers r) <-> b <> None)).
Proof.
  split.
  - intros e w1 Ht. rewrite makeAmadeusRequest_paths, Ht. reflexivity.
  - intros token w1 Ht r. rewrite makeAmadeusRequest_paths, Ht. cbv zeta.
    split.
    + destruct (fetch E (network w1) _) as [reason | response]; [reflexivity |].
      destruct (Response.ok response); [| reflexivity].
      destruct (Response.json response); reflexivity.
    + split; [reflexivity |]. split; [reflexivity |]. split; [reflexivity |].
      split; [left; reflexivity |]. split; [right; left; reflexivity |].
      subst r. unfold request_options. cbn [Request.headers].
      destruct b as [body |]; cbn [app In]; split.
      * intros _. discriminate.
      * intros _. right. right. left. reflexivity.
      * intros [H | [H | []]]; discriminate.
      * intros H. congruence.
Qed.

(** *** Substrings *)

Lemma prefix_app (s t : string) : prefix s (s ++ t) = true.
Proof.
  induction s as [| c s IH]; [destruct t; reflexivity |].
  cbn. destruct (ascii_dec c c) as [_ | Hc]; [exact IH | congruence].
Qed.

Lemma String_includes_prefix (s sub : string) :
  prefix sub s = true -> String_includes s sub = true.
Proof. intros H. destruct s; cbn [String_includes]; rewrite H; reflexivity. Qed.

Lemma String_includes_app_r (a s sub : string) :
  String_includes s sub = true -> String_includes (a ++ s) sub = true.
Proof.
  intros H. induction a as [| c a IH]; [exact H |].
  cbn [append String_includes]. rewrite IH.
  destruct (prefix sub (String c (a ++ s))); reflexivity.
Qed.

(** A string contains each of its infixes. *)
Lemma String_includes_infix (a sub b : string) :
  String_includes (a ++ sub ++ b) sub = true.
Proof.
  apply String_includes_app_r, String_includes_prefix, prefix_app.
Qed.

(** X3.  Error classification of the gateway.  When the token is at hand
    and the endpoint answers with a non-2xx status, [makeAmadeusRequest]
    throws the API error of that status, and the message of the error
    contains the raw body text of the answer, whatever the status; for
    404 and 400 it also contains the list of probable causes. *)
Theorem gateway_error_carries_upstream_text (endpoint method : string)
    (q : option (list (string * string))) (b : option BookingBody.t)
    (w w1 : World) (token : option string) (response : Response.t) :
  getAccessToken E w = (Returned token, w1) ->
  fetch E (network w1) (request_options endpoint method q b token) = Resolved response ->
  Response.ok response = false ->
  let e := ApiError (Response.status response) (Response.statusText response)
                    (Response.text response) in
  fst (makeAmadeusRequest E endpoint method q b w) = Thrown e
  /\ String_includes (Error_message e) (Response.text response) = true
  /\ (Response.status response = 404 \/ Response.status response = 400 ->
      String_includes (Error_message e) "This could be due to:" = true).
Proof.
  intros Ht Hf Hok e.
  split; [rewrite makeAmadeusRequest_paths, Ht; cbv zeta; rewrite Hf, Hok; reflexivity |].
  subst e. unfold Error_message.
  destruct (Response.status response =? 404) eqn:H404;
    [| destruct (Response.status response =? 400) eqn:H400].
  - split.
    + apply String_includes_app_r, String_includes_app_r, String_includes_infix
        with (a := EmptyString).
    + intros _.
      do 5 apply String_includes_app_r.
      apply String_includes_prefix, prefix_app.
  - split.
    + apply String_includes_app_r, String_includes_app_r, String_includes_infix
        with (a := EmptyString).
    + intros _.
      do 5 apply String_includes_app_r.
      apply String_includes_prefix, prefix_app.
  - split.
    + do 5 apply String_includes_app_r.
      apply String_includes_prefix.
      rewrite <- (prefix_app (Response.text response) EmptyString) at 1.
      f_equal. induction (Response.text response) as [| c t IH]; [reflexivity |].
      cbn. f_equal. exact IH.
    + intros [H | H]; rewrite H in *; discriminate.
Qed.

(** *** Search: what is sent *)

Lemma hotelList_batch (city : string) (w : World) :
  exists l,
    network (snd (hotelList E (cityOnly city) w)) = (network w ++ l)%list
    /\ gateway_batch E listing_endpoint "GET" (Some [("cityCode", city)]) None l.
Proof.
  unfold hotelList. rewrite rethrow_id.
  exact (makeAmadeusRequest_batch listing_endpoint "GET"
           (Some (hotelList_query (cityOnly city))) None w).
Qed.

Lemma getMockHotelOffers_same_log (city ci co : string) (w : World) :
  network (snd (getMockHotelOffers E city ci co w))
  = network (snd (hotelList E (cityOnly city) w)).
Proof.
  unfold getMockHotelOffers, try_catch, bind.
  destruct (hotelList E (cityOnly city) w) as [[body | e] w1]; cbn [snd].
  - pose proof (Array_map_network (mockOffer E ci co) (data_or_empty body)
                  (mockOffer_network E ci co) w1) as Hm.
    destruct (Array_map (mockOffer E ci co) (data_or_empty body) w1) as [[offers | e] w2];
      cbn [snd] in Hm.
    + exact Hm.
    + pose proof (basicMock_network E city ci co w2) as Hb.
      destruct (basicMock E city ci co w2) as [[x | e'] w3]; cbn [snd] in Hb |- *;
        unfold ret; cbn [snd]; congruence.
  - pose proof (basicMock_network E city ci co w1) as Hb.
    destruct (basicMock E city ci co w1) as [[x | e'] w3]; cbn [snd] in Hb |- *;
      unfold ret; cbn [snd]; congruence.
Qed.

Lemma hotelSearch_traffic (p : HotelSearchParams.t) (w : World) :
  exists l,
    network (snd (hotelSearch E p w)) = (network w ++ l)%list
    /\ search_traffic E p l.
Proof.
  destruct (hotelList_batch (HotelSearchParams.cityCode p) w) as [l1 [Hn1 Hb1]].
  assert (Himpl : exists l2,
             network (snd (hotelSearchImplementation E p w)) = (network w ++ l1 ++ l2)%list
             /\ (l2 = []
                 \/ exists ids, gateway_batch E offers_endpoint "GET"
                                  (Some (offersParams_of p ids)) None l2)).
  { rewrite hotelSearchImplementation_paths.
    destruct (hotelList E (cityOnly (HotelSearchParams.cityCode p)) w)
      as [[body | e] w1]; cbn [snd] in Hn1.
    - assert (Hstop : forall o : Outcome Json,
                 exists l2, network (snd (o, w1)) = (network w ++ l1 ++ l2)%list
                            /\ (l2 = []
                                \/ exists ids, gateway_batch E offers_endpoint "GET"
                                                 (Some (offersParams_of p ids)) None l2))
        by (intros o; exists []; rewrite app_nil_r; split; [exact Hn1 | left; reflexivity]).
      destruct (is_null body); [apply Hstop |].
      destruct (data_hotels body) as [[| h data'] |]; try apply Hstop.
      destruct (hotelIds_of _) as [| i ids]; [apply Hstop |].
      unfold makeOffersRequest. rewrite rethrow_id.
      destruct (makeAmadeusRequest_batch offers_endpoint "GET"
                  (Some (offersParams_of p (i :: ids))) None w1) as [l2 [Hn2 Hb2]].
      exists l2. rewrite Hn2, Hn1, app_assoc. split; [reflexivity |].
      right. exists (i :: ids). exact Hb2.
    - exists []. rewrite app_nil_r. split; [exact Hn1 | left; reflexivity]. }
  destruct Himpl as [l2 [Hn2 Hb2]].
  unfold hotelSearch, try_catch.
  destruct (hotelSearchImplementation E p w) as [[j | e] w1]; cbn [snd] in Hn2 |- *.
  - exists (l1 ++ l2 ++ [])%list. rewrite app_nil_r. split; [exact Hn2 |].
    exists l1, l2, []. rewrite app_nil_r. repeat split; try assumption.
    left. reflexivity.
  - rewrite getMockHotelOffers_same_log.
    destruct (hotelList_batch (HotelSearchParams.cityCode p) w1) as [l3 [Hn3 Hb3]].
    exists (l1 ++ l2 ++ l3)%list. rewrite Hn3, Hn2, <- !app_assoc.
    split; [reflexivity |].
    exists l1, l2, l3. repeat split; try assumption. right. exact Hb3.
Qed.

Lemma optional_param_keys (key : string) (value : option string) :
  map fst (optional_param key value) = [] \/ map fst (optional_param key value) = [key].
Proof.
  unfold optional_param. destruct (truthy_string value); [right | left]; reflexivity.
Qed.

Lemma offersParams_no_hotelName (p : HotelSearchParams.t) (ids : list (option string)) :
  ~ In "hotelName" (map fst (offersParams_of p ids)).
Proof.
  unfold offersParams_of. rewrite !map_app. cbn [map fst].
  intros H.
  repeat (apply in_app_or in H; destruct H as [H | H]);
    try (cbn in H; repeat destruct H as [H | H]; try discriminate; contradiction);
    match type of H with
    | In _ (map fst (optional_param ?k ?v)) =>
        destruct (optional_param_keys k v) as [Hk | Hk]; rewrite Hk in H;
        cbn in H; repeat destruct H as [H | H]; try discriminate; try contradiction
    end.
Qed.

Lemma gateway_batch_forall (P : Request.t -> Prop) (endpoint method : string)
    (q : option (list (string * string))) (b : option BookingBody.t)
    (l : list Request.t) :
  P (token_request E) ->
  (forall token, P (request_options endpoint method q b token)) ->
  gateway_batch E endpoint method q b l -> Forall P l.
Proof.
  intros Ht Hr [-> | [token [-> | ->]]]; repeat constructor; auto.
Qed.

(** X5.  The name filter stays on the client.  No request that
    [hotelSearch] adds to the log (credential exchange, listing, offers)
    carries a query parameter named [hotelName], whatever the query
    asks for. *)
Theorem name_filter_is_never_sent (p : HotelSearchParams.t) (w : World) :
  extends_log no_hotelName_key w (snd (hotelSearch E p w)).
Proof.
  destruct (hotelSearch_traffic p w) as [l [Hn [l1 [l2 [l3 [-> [H1 [H2 H3]]]]]]]].
  exists (l1 ++ l2 ++ l3)%list. split; [exact Hn |].
  assert (Htok : no_hotelName_key (token_request E))
    by (intros q Hq; discriminate).
  assert (Hlist : forall token,
             no_hotelName_key
               (request_options listing_endpoint "GET"
                  (Some [("cityCode", HotelSearchParams.cityCode p)]) None token)).
  { intros token q Hq. inversion Hq; subst. cbn.
    intros [H | []]. discriminate. }
  assert (Hoff : forall ids token,
             no_hotelName_key
               (request_options offers_endpoint "GET"
                  (Some (offersParams_of p ids)) None token)).
  { intros ids token q Hq. inversion Hq; subst. apply offersParams_no_hotelName. }
  repeat (apply Forall_app; split).
  - exact (gateway_batch_forall _ _ _ _ _ _ Htok Hlist H1).
  - destruct H2 as [-> | [ids H2]]; [constructor |].
    exact (gateway_batch_forall _ _ _ _ _ _ Htok (Hoff ids) H2).
  - destruct H3 as [-> | H3]; [constructor |].
    exact (gateway_batch_forall _ _ _ _ _ _ Htok Hlist H3).
Qed.

Lemma count_url_app (u : string) (l1 l2 : list Request.t) :
  count_url u (l1 ++ l2) = (count_url u l1 + count_url u l2)%nat.
Proof. unfold count_url. rewrite filter_app, length_app. reflexivity. Qed.

(** X6.  One search, one attempt per call.  [hotelSearch] adds at most
    six requests to the log: at most one of them goes to the offers
    endpoint and at most two to the listing endpoint (the second one
    being the listing call of the mock search); nothing is retried. *)
Theorem search_sends_at_most_one_offers_request (p : HotelSearchParams.t) (w : World) :
  exists added,
    network (snd (hotelSearch E p w)) = (network w ++ added)%list
    /\ (count_url offers_url added <= 1)%nat
    /\ (count_url listing_url added <= 2)%nat
    /\ (1 <= length added <= 6)%nat.
Proof.
  destruct (hotelSearch_traffic p w) as [l [Hn [l1 [l2 [l3 [-> [H1 [H2 H3]]]]]]]].
  exists (l1 ++ l2 ++ l3)%list. split; [exact Hn |].
  rewrite !count_url_app, !length_app.
  assert (C1 : count_url offers_url l1 = 0%nat /\ (count_url listing_url l1 <= 1)%nat
               /\ (1 <= length l1 <= 2)%nat).
  { destruct H1 as [-> | [token [-> | ->]]]; cbn; repeat split; lia. }
  assert (C2 : (count_url offers_url l2 <= 1)%nat /\ count_url listing_url l2 = 0%nat
               /\ (length l2 <= 2)%nat).
  { destruct H2 as [-> | [ids [-> | [token [-> | ->]]]]]; cbn; repeat split; lia. }
  assert (C3 : count_url offers_url l3 = 0%nat /\ (count_url listing_url l3 <= 1)%nat
               /\ (length l3 <= 2)%nat).
  { destruct H3 as [-> | [-> | [token [-> | ->]]]]; cbn; repeat split; lia. }
  lia.
Qed.

(** *** Search: the substitute at its edges *)

Lemma mockOffer_throws_on_invalid_date (ci co : string) (h : Hotel.t) (w : World) :
  Date_of_string E ci = None ->
  exists w', mockOffer E ci co h w = (Thrown RangeError_InvalidTime, w').
Proof.
  intros Hd. unfold mockOffer, bind, Date_now_, Math_random_, ret.
  destruct (Hotel.hotelId h) as [[| c r] |];
    rewrite (cancellationDeadline_invalid E _ _ Hd); eexists; reflexivity.
Qed.

(** X7.  When the real search has thrown and the check-in date is not a
    valid date, [hotelSearch] throws a RangeError in two cases: the
    listing call of the mock search throws, or it lists at least one
    hotel.  (The handler of [getMockHotelOffers] formats the same date
    again.) *)
Theorem search_throws_on_unparseable_date (p : HotelSearchParams.t)
    (w w1 : World) (e : Error) :
  hotelSearchImplementation E p w = (Thrown e, w1) ->
  Date_of_string E (HotelSearchParams.checkInDate p) = None ->
  match hotelList E (cityOnly (HotelSearchParams.cityCode p)) w1 with
  | (Thrown _, w2) =>
      hotelSearch E p w = (Thrown RangeError_InvalidTime, tick w2)
  | (Returned body, w2) =>
      data_or_empty body <> [] ->
      exists w', hotelSearch E p w = (Thrown RangeError_InvalidTime, w')
  end.
Proof.
  intros Hi Hd. rewrite (hotelSearch_degrades E p w w1 e Hi).
  unfold getMockHotelOffers, try_catch, bind.
  destruct (hotelList E (cityOnly (HotelSearchParams.cityCode p)) w1)
    as [[body | e'] w2].
  - intros Hne. destruct (data_or_empty body) as [| h hs]; [congruence |].
    cbn [Array_map]. unfold bind at 1.
    destruct (mockOffer_throws_on_invalid_date
                (HotelSearchParams.checkInDate p) (HotelSearchParams.checkOutDate p)
                h w2 Hd) as [w3 ->].
    unfold basicMock, bind, Date_now_.
    rewrite (cancellationDeadline_invalid E _ _ Hd). eexists; reflexivity.
  - unfold basicMock, bind, Date_now_.
    rewrite (cancellationDeadline_invalid E _ _ Hd). reflexivity.
Qed.

(** X8.  The substitute when no hotel is known.  After a failed real
    search: if the listing call of the mock search returns no hotel, the
    substitute is the empty result (no synthetic hotel, and the check-in
    date is not looked at); if that call throws and the check-in date is
    valid, the substitute is exactly one synthetic hotel, named after the
    city, rated 4, with the identifier [MOCK-<city>-001] and one offer
    [OFF-MOCK-<now>] at base 250 and total 275. *)
Theorem substitute_without_known_hotels (p : HotelSearchParams.t)
    (w w1 : World) (e : Error) :
  hotelSearchImplementation E p w = (Thrown e, w1) ->
  (forall body w2,
      hotelList E (cityOnly (HotelSearchParams.cityCode p)) w1 = (Returned body, w2) ->
      data_or_empty body = [] ->
      hotelSearch E p w = (Returned (HotelOffersJson []), w2))
  /\ (forall e' w2 t,
        hotelList E (cityOnly (HotelSearchParams.cityCode p)) w1 = (Thrown e', w2) ->
        Date_of_string E (HotelSearchParams.checkInDate p) = Some t ->
        - maxTime <= t - 86400000 * 3 ->
        exists ho o,
          hotelSearch E p w = (Returned (HotelOffersJson [ho]), tick w2)
          /\ Hotel.name (HotelOffers.hotel ho)
             = Some (HotelSearchParams.cityCode p ++ " Grand Hotel")
          /\ Hotel.hotelId (HotelOffers.hotel ho)
             = Some ("MOCK-" ++ HotelSearchParams.cityCode p ++ "-001")
          /\ Hotel.rating (HotelOffers.hotel ho) = Some 4%float
          /\ HotelOffers.offers ho = [o]
          /\ Offer.id o = "OFF-MOCK-" ++ Z_toString (Date_now E (clock w2))
          /\ Price.base (Offer.price o) = "250"
          /\ Price.total (Offer.price o) = "275"
          /\ map Cancellation.deadline (Policies.cancellations (Offer.policies o))
             = [Date_toISOString (t - 86400000 * 3)]).
Proof.
  intros Hi. rewrite (hotelSearch_degrades E p w w1 e Hi).
  unfold getMockHotelOffers, try_catch, bind. split.
  - intros body w2 Hl Hempty. rewrite Hl, Hempty. reflexivity.
  - intros e' w2 t Hl Ht Hlo. rewrite Hl.
    unfold basicMock, bind, Date_now_.
    rewrite (cancellationDeadline_valid E _ t _ Ht Hlo). unfold ret.
    eexists; eexists. split; [reflexivity |]. repeat split.
Qed.

(** *** Name filter *)

Lemma same_letter_lower (c d : ascii) :
  same_letter c d = Ascii.eqb (lower_char c) (lower_char d).
Proof.
  assert (Htable :
            forallb (fun m =>
              forallb (fun n =>
                Bool.eqb (same_letter (ascii_of_nat m) (ascii_of_nat n))
                         (Ascii.eqb (lower_char (ascii_of_nat m))
                                    (lower_char (ascii_of_nat n))))
                (seq 0 256)) (seq 0 256) = true)
    by (vm_compute; reflexivity).
  rewrite forallb_forall in Htable.
  assert (Hc : In (nat_of_ascii c) (seq 0 256))
    by (apply in_seq; pose proof (nat_ascii_bounded c); lia).
  assert (Hd : In (nat_of_ascii d) (seq 0 256))
    by (apply in_seq; pose proof (nat_ascii_bounded d); lia).
  pose proof (Htable _ Hc) as Hrow. rewrite forallb_forall in Hrow.
  pose proof (Hrow _ Hd) as Hcell.
  rewrite !ascii_nat_embedding in Hcell.
  apply Bool.eqb_prop in Hcell. exact Hcell.
Qed.

Lemma same_text_lower (s t : string) :
  same_text s t = true <-> String_toLowerCase s = String_toLowerCase t.
Proof.
  revert t. induction s as [| c s IH]; intros [| d t]; cbn;
    try (split; [reflexivity | reflexivity]);
    try (split; discriminate).
  rewrite same_letter_lower, andb_true_iff, IH, Ascii.eqb_eq.
  split.
  - intros [-> ->]. reflexivity.
  - intros H. inversion H. split; reflexivity.
Qed.

Lemma String_toLowerCase_app (a b : string) :
  String_toLowerCase (a ++ b) = String_toLowerCase a ++ String_toLowerCase b.
Proof. induction a as [| c a IH]; cbn; [reflexivity | rewrite IH; reflexivity]. Qed.

(** A split of the lower-cased string comes from a split of the string. *)
Lemma String_toLowerCase_split (s a b : string) :
  String_toLowerCase s = a ++ b ->
  exists s1 s2, s = s1 ++ s2 /\ String_toLowerCase s1 = a /\ String_toLowerCase s2 = b.
Proof.
  revert s. induction a as [| x a IH]; intros s H.
  - exists EmptyString, s. repeat split. exact H.
  - destruct s as [| c s]; [discriminate |].
    cbn in H. inversion H as [[Hc Hs]].
    destruct (IH s Hs) as [s1 [s2 [-> [H1 H2]]]].
    exists (String c s1), s2. cbn. rewrite H1. repeat split. exact H2.
Qed.

Lemma prefix_split (p s : string) :
  prefix p s = true -> exists rest, s = p ++ rest.
Proof.
  revert s. induction p as [| c p IH]; intros s H.
  - exists s. reflexivity.
  - destruct s as [| d s]; [discriminate |].
    cbn in H. destruct (ascii_dec c d) as [-> | _]; [| discriminate].
    destruct (IH s H) as [rest ->]. exists rest. reflexivity.
Qed.

(** [includes] finds exactly the infixes. *)
Lemma String_includes_split (s sub : string) :
  String_includes s sub = true <-> exists a b, s = a ++ sub ++ b.
Proof.
  split.
  - induction s as [| c s IH]; cbn [String_includes].
    + destruct (prefix sub EmptyString) eqn:Hp; [| discriminate].
      intros _. destruct (prefix_split _ _ Hp) as [rest Hrest].
      exists EmptyString, rest. exact Hrest.
    + destruct (prefix sub (String c s)) eqn:Hp.
      * intros _. destruct (prefix_split _ _ Hp) as [rest Hrest].
        exists EmptyString, rest. exact Hrest.
      * intros H. destruct (IH H) as [a [b ->]].
        exists (String c a), b. reflexivity.
  - intros [a [b ->]]. apply String_includes_infix.
Qed.

Lemma same_text_nonempty (s t : string) :
  same_text s t = true -> t <> EmptyString -> s <> EmptyString.
Proof. destruct s, t; cbn; congruence. Qed.

(** The test of line 508 decides [named_like]. *)
Lemma name_matches_named_like (term : string) (h : Hotel.t) :
  term <> EmptyString ->
  name_matches (String_toLowerCase term) h = true <-> named_like term h.
Proof.
  intros Hne. unfold name_matches, named_like, occurs_ignoring_case. split.
  - destruct (Hotel.name h) as [[| c r] |]; try discriminate.
    intros H. apply String_includes_split in H as [a [b H]].
    apply String_toLowerCase_split in H as [s1 [s23 [Hs [H1 H23]]]].
    apply String_toLowerCase_split in H23 as [s2 [s3 [-> [H2 H3]]]].
    exists (String c r). split; [reflexivity |].
    exists s1, s2, s3. split; [exact Hs |].
    apply same_text_lower. exact H2.
  - intros [name [Hname [before [found [after [-> Hsame]]]]]].
    rewrite Hname.
    pose proof (same_text_nonempty _ _ Hsame Hne) as Hfound.
    apply same_text_lower in Hsame.
    assert (Hincl : String_includes
                      (String_toLowerCase (before ++ found ++ after))
                      (String_toLowerCase term) = true).
    { rewrite !String_toLowerCase_app, Hsame. apply String_includes_infix. }
    destruct (before ++ found ++ after) as [| c r] eqn:Hn; [| exact Hincl].
    exfalso. destruct before; [destruct found; [congruence | discriminate] | discriminate].
Qed.

Lemma String_toLowerCase_truthy (s : string) :
  truthy_string (Some (String_toLowerCase s)) = truthy_string (Some s).
Proof. destruct s; reflexivity. Qed.

(** X9.  The client-side name filter, for a filter text and hotel names
    in ASCII.  Its result does not depend on the letter case of the
    filter text.  When the filter text occurs, letter case aside, in the
    name of at least one listed hotel, the result is the listing
    restricted, in listing order, to exactly the hotels in whose name it
    occurs; hotels without a name are dropped.  When it occurs in no
    name, the result is the whole listing.  (The two ASCII conditions
    delimit the texts on which [toLowerCase] is the conversion of the
    letters [A] to [Z].) *)
Theorem name_filter_ignores_case_and_keeps_matches
    (term : string) (data : list Hotel.t) :
  term <> EmptyString ->
  ascii_only term = true ->
  (forall h name, In h data -> Hotel.name h = Some name -> ascii_only name = true) ->
  (forall term',
      same_text term term' = true ->
      filteredHotels_of (Some term') data = filteredHotels_of (Some term) data)
  /\ ((exists h, In h data /\ named_like term h) ->
      exists keep,
        filteredHotels_of (Some term) data = filter keep data
        /\ (forall h, keep h = true <-> named_like term h))
  /\ ((forall h, In h data -> ~ named_like term h) ->
      filteredHotels_of (Some term) data = data).
Proof.
  intros Hne _ _. split; [| split].
  - intros term' Hsame. apply same_text_lower in Hsame.
    unfold filteredHotels_of.
    rewrite <- (String_toLowerCase_truthy term), <- (String_toLowerCase_truthy term').
    cbn [template_string]. rewrite Hsame. reflexivity.
  - intros [h0 [Hin Hnamed]].
    exists (name_matches (String_toLowerCase term)).
    split; [| intros h; apply name_matches_named_like; exact Hne].
    apply (name_matches_named_like term h0 Hne) in Hnamed.
    unfold filteredHotels_of. rewrite (truthy_string_Some _ Hne).
    cbn [template_string].
    destruct (filter (name_matches (String_toLowerCase term)) data) eqn:Hf;
      [| reflexivity].
    exfalso.
    assert (Hkept : In h0 (filter (name_matches (String_toLowerCase term)) data))
      by (apply filter_In; split; assumption).
    rewrite Hf in Hkept. contradiction.
  - intros Hnone. apply filteredHotels_fallback.
    intros h Hin. cbn [template_string].
    destruct (name_matches (String_toLowerCase term) h) eqn:Hm; [| reflexivity].
    exfalso. apply (Hnone h Hin).
    apply (name_matches_named_like term h Hne). exact Hm.
Qed.

(** *** Offer identifiers of the substitute *)

Lemma string_of_uint_digits (d : Decimal.uint) :
  all_digits (NilEmpty.string_of_uint d) = true.
Proof. induction d; cbn; try reflexivity; exact IHd. Qed.

Lemma Z_toString_digits (z : Z) : 0 <= z -> all_digits (Z_toString z) = true.
Proof.
  intros Hz. unfold Z_toString, NilZero.string_of_int, NilZero.string_of_uint.
  destruct z as [| p | p]; [reflexivity | | lia].
  cbn [Z.to_int]. destruct (Pos.to_uint p); try reflexivity;
    cbn; apply string_of_uint_digits.
Qed.

Lemma Z_toString_injective (z z' : Z) : Z_toString z = Z_toString z' -> z = z'.
Proof.
  intros H. apply DecimalZ.to_int_inj.
  assert (Hnn : forall n, Z.to_int n <> Decimal.Pos Decimal.Nil
                          /\ Z.to_int n <> Decimal.Neg Decimal.Nil).
  { intros [| p | p]; cbn; split; try discriminate; intros Hp; inversion Hp as [Hq];
      exact (DecimalPos.Unsigned.to_uint_nonnil p Hq). }
  assert (Hparse : forall n, NilZero.int_of_string (Z_toString n) = Some (Z.to_int n))
    by (intros n; apply NilZero.isi; apply Hnn).
  pose proof (Hparse z) as H1. rewrite H, Hparse in H1. congruence.
Qed.

Lemma digits_have_no_hyphen (a b : string) :
  all_digits (a ++ String "-" b) = false.
Proof.
  induction a as [| c a IH]; [reflexivity |].
  cbn. rewrite IH. apply andb_false_r.
Qed.

(** A text followed by a hyphen and digits splits in one way only. *)
Lemma hyphen_digits_split (a b d1 d2 : string) :
  all_digits d1 = true -> all_digits d2 = true ->
  a ++ String "-" d1 = b ++ String "-" d2 -> a = b /\ d1 = d2.
Proof.
  intros H1 H2. revert b. induction a as [| c a IH]; intros [| c' b] H.
  - inversion H. split; reflexivity.
  - inversion H as [[Hc Hd]]. rewrite Hd, digits_have_no_hyphen in H1. discriminate.
  - inversion H as [[Hc Hd]]. rewrite <- Hd, digits_have_no_hyphen in H2. discriminate.
  - inversion H as [[Hc Hd]]. destruct (IH b Hd) as [-> ->]. split; reflexivity.
Qed.

Lemma mockOffer_id (ci co : string) (h : Hotel.t) (id : string) (w w' : World)
    (ho : HotelOffers.t) :
  Hotel.hotelId h = Some id -> id <> EmptyString ->
  mockOffer E ci co h w = (Returned ho, w') ->
  HotelOffers.hotel ho = h
  /\ map Offer.id (HotelOffers.offers ho)
     = ["OFF-" ++ id ++ "-" ++ Z_toString (Date_now E (clock w))]
  /\ w' = tick w.
Proof.
  intros Hid Hne. unfold mockOffer. rewrite Hid.
  destruct id as [| c r]; [congruence |].
  unfold bind, Date_now_, ret.
  pose proof (cancellationDeadline_world E ci (tick w)) as Hw.
  destruct (cancellationDeadline E ci (tick w)) as [[d | e] w0]; cbn [snd] in Hw;
    intros H; inversion H; subst. repeat split.
Qed.

(** X10.  The identifier of a substitute offer encodes the hotel and the
    instant.  For a hotel with an identifier, [mockOffer] names its offer
    [OFF-<hotelId>-<now>], with [now] the clock reading it makes; and when
    the clock readings are not negative, two such offer identifiers are
    equal only if the hotel identifiers and the readings are equal.  So
    the offers of hotels with different identifiers never share an
    identifier. *)
Theorem mock_offer_id_encodes_hotel_and_instant
    (ci co : string) (h1 h2 : Hotel.t) (id1 id2 : string)
    (w1 w2 w1' w2' : World) (ho1 ho2 : HotelOffers.t) :
  Hotel.hotelId h1 = Some id1 -> id1 <> EmptyString ->
  Hotel.hotelId h2 = Some id2 -> id2 <> EmptyString ->
  0 <= Date_now E (clock w1) -> 0 <= Date_now E (clock w2) ->
  mockOffer E ci co h1 w1 = (Returned ho1, w1') ->
  mockOffer E ci co h2 w2 = (Returned ho2, w2') ->
  map Offer.id (HotelOffers.offers ho1)
  = ["OFF-" ++ id1 ++ "-" ++ Z_toString (Date_now E (clock w1))]
  /\ (map Offer.id (HotelOffers.offers ho1) = map Offer.id (HotelOffers.offers ho2) ->
      id1 = id2 /\ Date_now E (clock w1) = Date_now E (clock w2)).
Proof.
  intros Hid1 Hne1 Hid2 Hne2 Hc1 Hc2 Hm1 Hm2.
  destruct (mockOffer_id ci co h1 id1 w1 w1' ho1 Hid1 Hne1 Hm1) as [_ [Ho1 _]].
  destruct (mockOffer_id ci co h2 id2 w2 w2' ho2 Hid2 Hne2 Hm2) as [_ [Ho2 _]].
  split; [exact Ho1 |].
  rewrite Ho1, Ho2. intros H. inversion H as [Heq].
  apply hyphen_digits_split in Heq as [Ha Hd];
    try (apply Z_toString_digits; assumption).
  split; [exact Ha | apply Z_toString_injective; exact Hd].
Qed.

(** *** Offer details *)

Lemma fixed_deadline (w : World) :
  cancellationDeadline E "2025-04-01" w = (Returned "2025-03-29T00:00:00.000Z", w).
Proof. vm_compute. reflexivity. Qed.

(** X11.  [hotelOffer] never throws.  It sends one GET for
    [v3/shopping/hotel-offers/<offerId>]; when that call returns, the
    result is the upstream body; when it throws, the result is a detail
    record that echoes the offer identifier and is otherwise fixed:
    check-in 2025-04-01, check-out 2025-04-05, base 250, total 275,
    deadline 2025-03-29, for a hotel identified by the text captured from
    the offer identifier, or [MOCK-HOTEL] when the pattern does not
    match.  The substitute changes nothing in the world. *)
Theorem hotelOffer_never_throws (p : HotelOfferParams.t) (w : World) :
  exists j w',
    hotelOffer E p w = (Returned j, w')
    /\ (makeAmadeusRequest E (detail_endpoint (HotelOfferParams.offerId p))
                           "GET" None None w
        = (Returned j, w')
        \/ exists e d,
             makeAmadeusRequest E (detail_endpoint (HotelOfferParams.offerId p))
                                "GET" None None w
             = (Thrown e, w')
             /\ j = OfferDetailJson d
             /\ Offer.id (OfferDetail.offer d) = HotelOfferParams.offerId p
             /\ Hotel.hotelId (OfferDetail.hotel d)
                = Some (detail_hotelId (HotelOfferParams.offerId p))
             /\ Hotel.name (OfferDetail.hotel d)
                = Some ("Hotel " ++ detail_hotelId (HotelOfferParams.offerId p))
             /\ Offer.checkInDate (OfferDetail.offer d) = "2025-04-01"
             /\ Offer.checkOutDate (OfferDetail.offer d) = "2025-04-05"
             /\ Price.base (Offer.price (OfferDetail.offer d)) = "250"
             /\ Price.total (Offer.price (OfferDetail.offer d)) = "275"
             /\ map Cancellation.deadline
                    (Policies.cancellations (Offer.policies (OfferDetail.offer d)))
                = ["2025-03-29T00:00:00.000Z"]).
Proof.
  unfold hotelOffer, try_catch. fold (detail_endpoint (HotelOfferParams.offerId p)).
  destruct (makeAmadeusRequest E (detail_endpoint (HotelOfferParams.offerId p))
              "GET" None None w) as [[j | e] w1].
  - exists j, w1. split; [reflexivity | left; reflexivity].
  - unfold getMockHotelOfferDetails, bind. rewrite fixed_deadline. unfold ret.
    eexists; eexists. split; [reflexivity |]. right.
    eexists; eexists. split; [reflexivity |]. split; [reflexivity |].
    repeat split.
Qed.

(** *** The pattern of the detail substitute *)

Lemma token_run_token_chars (s : string) : all_token_chars (token_run s) = true.
Proof.
  induction s as [| c r IH]; [reflexivity |].
  cbn. destruct (is_token_char c) eqn:Hc; [cbn; rewrite Hc, IH |]; reflexivity.
Qed.

Lemma token_run_prefix (s : string) : prefix (token_run s) s = true.
Proof.
  induction s as [| c r IH]; [reflexivity |].
  cbn. destruct (is_token_char c); [| reflexivity].
  cbn. destruct (ascii_dec c c) as [_ | Hc]; [exact IH | congruence].
Qed.

Lemma String_includes_cons (c : ascii) (s sub : string) :
  String_includes s sub = true -> String_includes (String c s) sub = true.
Proof. intros H. exact (String_includes_app_r (String c EmptyString) s sub H). Qed.

Lemma match_OFF_here_sound (s t : string) :
  match_OFF_here s = Some t ->
  t <> EmptyString /\ all_token_chars t = true /\ String_includes s t = true.
Proof.
  destruct s as [| o [| f1 [| f2 [| d r]]]]; try discriminate.
  cbn [match_OFF_here].
  destruct (Ascii.eqb (lower_char o) "o" && Ascii.eqb (lower_char f1) "f"
            && Ascii.eqb (lower_char f2) "f" && Ascii.eqb d "-"); [| discriminate].
  destruct (token_run r) as [| c t'] eqn:Hrun; [discriminate |].
  intros H. inversion H; subst t. split; [discriminate |].
  rewrite <- Hrun. split; [apply token_run_token_chars |].
  do 4 apply String_includes_cons.
  apply String_includes_prefix, token_run_prefix.
Qed.

Lemma prefix_off_lower (o f1 f2 d : ascii) (r : string) :
  prefix "off-" (String_toLowerCase (String o (String f1 (String f2 (String d r)))))
  = Ascii.eqb (lower_char o) "o" && Ascii.eqb (lower_char f1) "f"
    && Ascii.eqb (lower_char f2) "f" && Ascii.eqb (lower_char d) "-".
Proof.
  cbn [String_toLowerCase prefix].
  repeat match goal with
         | |- context [ascii_dec ?a ?b] =>
             destruct (ascii_dec a b) as [<- | Hn];
             [rewrite ?Ascii.eqb_refl
             | rewrite ?(proj2 (Ascii.eqb_neq _ _) (not_eq_sym Hn)), ?andb_false_r;
               cbn [andb]; try reflexivity]
         end.
  destruct r; reflexivity.
Qed.

Lemma lower_char_hyphen (d : ascii) : Ascii.eqb d "-" = Ascii.eqb (lower_char d) "-".
Proof. destruct d as [[] [] [] [] [] [] [] []]; reflexivity. Qed.

(** X12.  The pattern [/OFF-([A-Z0-9-]+)/i] as the detail substitute uses
    it.  Whatever it captures is a non-empty run of letters, digits and
    hyphens that occurs in the offer identifier; and when the offer
    identifier does not contain [off-] in any case, nothing is captured
    and the substitute's hotel is [MOCK-HOTEL]. *)
Theorem detail_pattern_capture (offerId : string) :
  (forall t,
      match_OFF offerId = Some t ->
      t <> EmptyString /\ all_token_chars t = true
      /\ String_includes offerId t = true)
  /\ (String_includes (String_toLowerCase offerId) "off-" = false ->
      match_OFF offerId = None /\ detail_hotelId offerId = "MOCK-HOTEL").
Proof.
  split.
  - induction offerId as [| c s IH]; intros t H.
    + cbn in H. discriminate.
    + cbn [match_OFF] in H.
      destruct (match_OFF_here (String c s)) as [t0 |] eqn:Hh.
      * inversion H; subst t0. exact (match_OFF_here_sound _ _ Hh).
      * destruct (IH t H) as [H1 [H2 H3]].
        split; [exact H1 |]. split; [exact H2 |].
        apply String_includes_cons. exact H3.
  - intros H.
    assert (Hnone : match_OFF offerId = None).
    { induction offerId as [| c s IH]; [reflexivity |].
      cbn [String_toLowerCase String_includes] in H.
      destruct (prefix "off-" (String (lower_char c) (String_toLowerCase s))) eqn:Hp;
        [discriminate |].
      cbn [match_OFF].
      assert (Hh : match_OFF_here (String c s) = None).
      { destruct s as [| f1 [| f2 [| d r]]]; try reflexivity.
        change (String (lower_char c)
                  (String_toLowerCase (String f1 (String f2 (String d r)))))
          with (String_toLowerCase (String c (String f1 (String f2 (String d r))))) in Hp.
        rewrite prefix_off_lower, <- lower_char_hyphen in Hp.
        cbn [match_OFF_here]. rewrite Hp. reflexivity. }
      rewrite Hh. apply IH. exact H. }
    split; [exact Hnone |]. unfold detail_hotelId. rewrite Hnone. reflexivity.
Qed.

Lemma length_append (a b : string) :
  String.length (a ++ b) = (String.length a + String.length b)%nat.
Proof. induction a as [| c a IH]; cbn; [reflexivity | rewrite IH; reflexivity]. Qed.

(** X13.  From the search substitute to the detail substitute.  For a
    hotel whose identifier is a non-empty run of letters, digits and
    hyphens, the detail substitute built from the identifier of its
    substitute offer names the hotel [<hotelId>-<now>], the hotel
    identifier followed by the hyphen and the clock reading of the offer;
    it does not name it [<hotelId>]. *)
Theorem detail_of_substitute_offer
    (ci co : string) (h : Hotel.t) (id : string) (w w' w0 : World)
    (ho : HotelOffers.t) (o : Offer.t) :
  Hotel.hotelId h = Some id -> id <> EmptyString -> all_token_chars id = true ->
  mockOffer E ci co h w = (Returned ho, w') ->
  HotelOffers.offers ho = [o] ->
  exists d,
    getMockHotelOfferDetails E (Offer.id o) w0 = (Returned (OfferDetailJson d), w0)
    /\ Hotel.hotelId (OfferDetail.hotel d)
       = Some (id ++ "-" ++ Z_toString (Date_now E (clock w)))
    /\ Hotel.hotelId (OfferDetail.hotel d) <> Some id
    /\ Offer.id (OfferDetail.offer d) = Offer.id o.
Proof.
  intros Hid Hne Hall Hm Ho.
  destruct (mockOffer_id ci co h id w w' ho Hid Hne Hm) as [_ [Hids _]].
  rewrite Ho in Hids. cbn [map] in Hids.
  assert (Hoid : Offer.id o = "OFF-" ++ id ++ "-" ++ Z_toString (Date_now E (clock w)))
    by congruence.
  unfold getMockHotelOfferDetails, bind. rewrite Hoid.
  rewrite (match_OFF_takes_suffix id (Date_now E (clock w)) Hne Hall).
  rewrite fixed_deadline. unfold ret.
  eexists. split; [reflexivity |]. split; [reflexivity |].
  split; [| reflexivity].
  cbn [OfferDetail.hotel Hotel.hotelId]. intros H. inversion H as [Heq].
  apply (f_equal String.length) in Heq.
  rewrite length_append in Heq. cbn [String.length append] in Heq. lia.
Qed.

(** *** Booking *)

Lemma rebuilt_guests (guests : list Guest.t) :
  map (fun guest =>
         {| Guest.name :=
              {| GuestName.title := GuestName.title (Guest.name guest);
                 GuestName.firstName := GuestName.firstName (Guest.name guest);
                 GuestName.lastName := GuestName.lastName (Guest.name guest) |};
            Guest.contact :=
              {| Contact.phone := Contact.phone (Guest.contact guest);
                 Contact.email := Contact.email (Guest.contact guest) |} |})
      guests
  = guests.
Proof.
  induction guests as [| [[title first last] [phone email]] l IH]; [reflexivity |].
  cbn. rewrite IH. reflexivity.
Qed.

Lemma rebuilt_payments (payments : list Payment.t) :
  map (fun payment =>
         {| Payment.method := Payment.method payment;
            Payment.card :=
              match Payment.card payment with
              | Some card =>
                  Some {| Card.vendorCode := Card.vendorCode card;
                          Card.cardNumber := Card.cardNumber card;
                          Card.expiryDate := Card.expiryDate card |}
              | None => None
              end |})
      payments
  = payments.
Proof.
  induction payments as [| [method [[v n x] |]] l IH]; [reflexivity | |];
    cbn; rewrite IH; reflexivity.
Qed.

(** X14.  What a booking sends.  The body built for the booking endpoint
    carries the caller's offer identifier, guests and payments unchanged,
    in order.  [hotelBooking] sends it in exactly one POST with the JSON
    content type once the token manager has returned a token, whether the
    call then succeeds or the mock confirmation is used; when the token
    manager throws, nothing is sent to the booking endpoint. *)
Theorem booking_sends_the_callers_data_once (p : HotelBookingParams.t) (w : World) :
  (BookingBody.offerId (bookingBody_of p) = HotelBookingParams.offerId p
   /\ BookingBody.guests (bookingBody_of p) = HotelBookingParams.guests p
   /\ BookingBody.payments (bookingBody_of p) = HotelBookingParams.payments p)
  /\ (forall token w1,
        getAccessToken E w = (Returned token, w1) ->
        let r := request_options booking_endpoint "POST" None
                                 (Some (bookingBody_of p)) token in
        network (snd (hotelBooking E p w)) = (network w1 ++ [r])%list
        /\ Request.method r = "POST"
        /\ Request.body r = Some (JsonBody (bookingBody_of p))
        /\ In ("Content-Type", "application/json") (Request.headers r))
  /\ (forall e w1,
        getAccessToken E w = (Thrown e, w1) ->
        network (snd (hotelBooking E p w)) = network w1).
Proof.
  split.
  - unfold bookingBody_of. cbn [BookingBody.offerId BookingBody.guests BookingBody.payments].
    rewrite rebuilt_guests, rebuilt_payments. repeat split.
  - split.
    + intros token w1 Ht r.
      split; [| repeat split; right; right; left; reflexivity].
      unfold hotelBooking, try_catch. cbv zeta.
      pose proof (proj2 (gateway_sends_one_authorized_request_log booking_endpoint "POST"
                           None (Some (bookingBody_of p)) w) token w1 Ht) as Hn.
      destruct (makeAmadeusRequest E booking_endpoint "POST" None
                  (Some (bookingBody_of p)) w) as [[j | e] w2]; cbn [snd] in Hn |- *.
      * exact Hn.
      * rewrite (getMockBookingConfirmation_returns E _ _ p w2 eq_refl eq_refl).
        exact Hn.
    + intros e w1 Ht.
      unfold hotelBooking, try_catch. cbv zeta.
      pose proof (proj1 (gateway_sends_one_authorized_request_log booking_endpoint "POST"
                           None (Some (bookingBody_of p)) w) e w1 Ht) as Hn.
      destruct (makeAmadeusRequest E booking_endpoint "POST" None
                  (Some (bookingBody_of p)) w) as [[j | e0] w2]; cbn [snd] in Hn |- *.
      * discriminate.
      * rewrite (getMockBookingConfirmation_returns E _ _ p w2 eq_refl eq_refl).
        inversion Hn. reflexivity.
Qed.

(** *** Rendered texts *)

Lemma prefix_app_l (p a b : string) : prefix p a = true -> prefix p (a ++ b) = true.
Proof.
  revert a. induction p as [| c p IH]; intros a H.
  - destruct (a ++ b); reflexivity.
  - destruct a as [| c' a]; [discriminate |].
    cbn in H |- *. destruct (ascii_dec c c'); [apply IH; exact H | discriminate].
Qed.

Lemma String_includes_app_l (a b sub : string) :
  String_includes a sub = true -> String_includes (a ++ b) sub = true.
Proof.
  induction a as [| c a IH]; intros H.
  - cbn [String_includes] in H. destruct (prefix sub EmptyString) eqn:Hp; [| discriminate].
    destruct sub; [| discriminate].
    apply String_includes_prefix. destruct (EmptyString ++ b); reflexivity.
  - cbn [append String_includes] in H |- *.
    destruct (prefix sub (String c a)) eqn:Hp.
    + change (String c (a ++ b)) with (String c a ++ b).
      rewrite (prefix_app_l _ _ b Hp). reflexivity.
    + rewrite (IH H). destruct (prefix sub (String c (a ++ b))); reflexivity.
Qed.

Section Accumulate.

Context {A : Type} (f : A -> string).

Lemma accumulate_prefix (l : list A) (acc p : string) :
  prefix p acc = true ->
  prefix p (fold_left (fun result x => result ++ f x) l acc) = true.
Proof.
  revert acc. induction l as [| x l IH]; intros acc H; [exact H |].
  cbn [fold_left]. apply IH, prefix_app_l, H.
Qed.

Lemma accumulate_keeps (l : list A) (acc sub : string) :
  String_includes acc sub = true ->
  String_includes (fold_left (fun result x => result ++ f x) l acc) sub = true.
Proof.
  revert acc. induction l as [| x l IH]; intros acc H; [exact H |].
  cbn [fold_left]. apply IH, String_includes_app_l, H.
Qed.

Lemma accumulate_includes (l : list A) (acc sub : string) (x : A) :
  In x l -> String_includes (f x) sub = true ->
  String_includes (fold_left (fun result x => result ++ f x) l acc) sub = true.
Proof.
  revert acc. induction l as [| y l IH]; intros acc Hin H; [contradiction |].
  cbn [fold_left]. destruct Hin as [-> | Hin].
  - apply accumulate_keeps, String_includes_app_r, H.
  - apply IH; assumption.
Qed.

End Accumulate.

(** X15.  The listing text.  Without [data], or with an empty one, it is
    the sentence "No hotels found matching your criteria.".  Otherwise it
    opens with the number of hotels received, and every hotel is in it:
    the name of each named hotel, the words "Unnamed Hotel" when a hotel
    has no name, and "ID: <hotelId>" for each hotel that has an
    identifier. *)
Theorem listing_text_names_every_hotel (data : option (list Hotel.t)) :
  (data = None \/ data = Some [] ->
   formatHotelListResults data = "No hotels found matching your criteria.")
  /\ (forall hotels,
        data = Some hotels -> hotels <> [] ->
        prefix ("Found " ++ Z_toString (Z.of_nat (length hotels)) ++ " hotels:")
               (formatHotelListResults data) = true
        /\ (forall h name,
              In h hotels -> Hotel.name h = Some name -> name <> EmptyString ->
              String_includes (formatHotelListResults data) name = true)
        /\ (forall h,
              In h hotels -> truthy_string (Hotel.name h) = false ->
              String_includes (formatHotelListResults data) "Unnamed Hotel" = true)
        /\ (forall h id,
              In h hotels -> Hotel.hotelId h = Some id -> id <> EmptyString ->
              String_includes (formatHotelListResults data) ("ID: " ++ id) = true)).
Proof.
  split.
  - intros [-> | ->]; reflexivity.
  - intros hotels -> Hne. destruct hotels as [| h0 hs]; [congruence |].
    unfold formatHotelListResults.
    set (n := Z_toString (Z.of_nat (length (h0 :: hs)))).
    split; [| split; [| split]].
    + apply accumulate_prefix.
      change ("Found " ++ n ++ " hotels:" ++ newline ++ newline)
        with (("Found " ++ n) ++ " hotels:" ++ newline ++ newline).
      change ("Found " ++ n ++ " hotels:") with (("Found " ++ n) ++ " hotels:").
      generalize ("Found " ++ n). intros a.
      induction a as [| c a IH]; [reflexivity |].
      cbn. destruct (ascii_dec c c) as [_ | Hc]; [exact IH | congruence].
    + intros h name Hin Hname Hnn.
      apply (accumulate_includes hotel_block _ _ _ h Hin).
      unfold hotel_block. rewrite Hname, (truthy_string_Some _ Hnn).
      cbn [template_string].
      apply String_includes_app_l, String_includes_app_r, String_includes_app_r.
      apply String_includes_prefix, prefix_app.
    + intros h Hin Hname.
      apply (accumulate_includes hotel_block _ _ _ h Hin).
      unfold hotel_block. rewrite Hname.
      apply String_includes_app_l, String_includes_app_r, String_includes_app_r.
      apply String_includes_prefix. reflexivity.
    + intros h id Hin Hid Hnn.
      apply (accumulate_includes hotel_block _ _ _ h Hin).
      unfold hotel_block. rewrite Hid, (truthy_string_Some _ Hnn).
      cbn [template_string].
      apply String_includes_app_r, String_includes_app_l, String_includes_app_r.
      change (" ID: " ++ id ++ newline) with (" " ++ ("ID: " ++ id) ++ newline).
      apply String_includes_app_r, String_includes_prefix, prefix_app.
Qed.

Lemma append_associative (a b c : string) : (a ++ b) ++ c = a ++ b ++ c.
Proof. induction a as [| x a IH]; cbn; [reflexivity | rewrite IH; reflexivity]. Qed.

(** X16.  What the caller reads after a degraded booking.  When the
    submission through the gateway throws, the confirmation that
    [hotelBooking] returns renders as the confirmation heading, the line
    "Booking ID: BK<t1>", the line "Provider Confirmation: PC<t2>", the
    record line "- REF<t3> (MOCK)" and the closing advice, where t1, t2,
    t3 are the three clock readings made after the failure; nothing in
    the text tells the substitute from a real confirmation. *)
Theorem degraded_booking_text (p : HotelBookingParams.t) (w w1 : World) (e : Error) :
  makeAmadeusRequest E booking_endpoint "POST" None (Some (bookingBody_of p)) w
  = (Thrown e, w1) ->
  exists c,
    hotelBooking E p w = (Returned (BookingJson c), tick (tick (tick w1)))
    /\ formatHotelBookingResults (Some c)
       = icon_check ++ " Hotel Booking Confirmed!" ++ newline ++ newline
         ++ icon_bookmark ++ " Booking ID: BK" ++ Z_toString (Date_now E (clock w1))
         ++ newline
         ++ icon_label ++ " Provider Confirmation: PC"
         ++ Z_toString (Date_now E (S (clock w1))) ++ newline
         ++ icon_pin ++ " Associated Records:" ++ newline
         ++ "- REF" ++ Z_toString (Date_now E (S (S (clock w1)))) ++ " (MOCK)" ++ newline
         ++ newline ++ icon_phone
         ++ " Contact the hotel directly for any changes or cancellations.".
Proof.
  intros Hm. exists (fresh_confirmation E (clock w1) p). split.
  - unfold hotelBooking, try_catch. cbv zeta. rewrite Hm.
    rewrite (getMockBookingConfirmation_returns E _ _ p w1 eq_refl eq_refl).
    reflexivity.
  - unfold fresh_confirmation.
    generalize (Z_toString (Date_now E (clock w1))),
               (Z_toString (Date_now E (S (clock w1)))),
               (Z_toString (Date_now E (S (S (clock w1))))).
    intros t1 t2 t3.
    cbn -[icon_check icon_bookmark icon_label icon_pin icon_phone newline].
    rewrite !append_associative.
    cbn -[icon_check icon_bookmark icon_label icon_pin icon_phone newline].
    rewrite ?append_associative.
    reflexivity.
Qed.

End Coverage.

(** ** The further properties on concrete runs *)

Lemma getAccessToken_footprint_witness :
  accessToken (snd (getAccessToken ritz_env initial)) = Some "tok"
  /\ accessToken (snd (getAccessToken ritz_env cached_world)) = accessToken cached_world
  /\ tokenExpiry (snd (getAccessToken ritz_env cached_world)) = tokenExpiry cached_world.
Proof.
  split.
  - apply (proj1 (proj2 (proj2 (proj2 (getAccessToken_footprint ritz_env initial))))).
    vm_compute. reflexivity.
  - apply (proj2 (proj2 (proj2 (proj2 (getAccessToken_footprint ritz_env cached_world))))).
    vm_compute. reflexivity.
Defined.

Lemma gateway_request_witness :
  network (snd (makeAmadeusRequest ritz_env offers_endpoint "GET" None None cached_world))
  = [request_options offers_endpoint "GET" None None (Some "tok")]
  /\ In ("Authorization", "Bearer tok")
        (Request.headers (request_options offers_endpoint "GET" None None (Some "tok"))).
Proof.
  destruct (proj2 (gateway_sends_one_authorized_request ritz_env offers_endpoint "GET"
                     None None cached_world)
              (Some "tok") (tick cached_world) ltac:(vm_compute; reflexivity))
    as [H1 [_ [_ [_ [H2 _]]]]].
  split; [exact H1 | exact H2].
Defined.

Lemma gateway_error_witness :
  fst (makeAmadeusRequest ritz_env offers_endpoint "GET" None None cached_world)
  = Thrown (ApiError 500 "Internal Server Error" "{ errors }")
  /\ String_includes
       (Error_message (ApiError 500 "Internal Server Error" "{ errors }"))
       "{ errors }" = true.
Proof.
  destruct (gateway_error_carries_upstream_text ritz_env offers_endpoint "GET" None None
              cached_world (tick cached_world) (Some "tok")
              (error_response 500 "Internal Server Error")
              ltac:(vm_compute; reflexivity) ltac:(vm_compute; reflexivity)
              ltac:(vm_compute; reflexivity))
    as [H1 [H2 _]].
  split; [exact H1 | exact H2].
Defined.

Lemma search_returns_witness :
  exists j w',
    hotelSearch ritz_env paris_query initial = (Returned j, w')
    /\ (hotelSearchImplementation ritz_env paris_query initial = (Returned j, w')
        \/ exists e w1 offers,
             hotelSearchImplementation ritz_env paris_query initial = (Thrown e, w1)
             /\ j = HotelOffersJson offers).
Proof.
  apply (hotelSearch_returns_on_valid_date ritz_env paris_query initial 1743465600000).
  - vm_compute. reflexivity.
  - vm_compute. discriminate.
Defined.

Lemma unparseable_date_witness :
  exists w',
    hotelSearch ritz_env bad_date_query initial = (Thrown RangeError_InvalidTime, w').
Proof.
  pose proof (search_throws_on_unparseable_date ritz_env bad_date_query initial
                (snd (hotelSearchImplementation ritz_env bad_date_query initial))
                (ApiError 500 "Internal Server Error" "{ errors }")
                ltac:(vm_compute; reflexivity) ltac:(vm_compute; reflexivity)) as H.
  assert (Hl : hotelList ritz_env (cityOnly (HotelSearchParams.cityCode bad_date_query))
                 (snd (hotelSearchImplementation ritz_env bad_date_query initial))
               = (Returned (HotelListJson (Some [ritz])),
                  snd (hotelList ritz_env (cityOnly "PAR")
                         (snd (hotelSearchImplementation ritz_env bad_date_query initial)))))
    by (vm_compute; reflexivity).
  rewrite Hl in H. apply H. discriminate.
Defined.

Lemma synthetic_hotel_witness :
  exists ho o,
    fst (hotelSearch offline_env paris_query initial) = Returned (HotelOffersJson [ho])
    /\ Hotel.name (HotelOffers.hotel ho) = Some "PAR Grand Hotel"
    /\ Hotel.hotelId (HotelOffers.hotel ho) = Some "MOCK-PAR-001"
    /\ HotelOffers.offers ho = [o]
    /\ Price.total (Offer.price o) = "275".
Proof.
  destruct (proj2 (substitute_without_known_hotels offline_env paris_query initial
                     (snd (hotelSearchImplementation offline_env paris_query initial))
                     (FetchError "fetch failed") ltac:(vm_compute; reflexivity))
              (FetchError "fetch failed")
              (snd (hotelList offline_env (cityOnly "PAR")
                      (snd (hotelSearchImplementation offline_env paris_query initial))))
              1743465600000
              ltac:(vm_compute; reflexivity) ltac:(vm_compute; reflexivity)
              ltac:(vm_compute; discriminate))
    as [ho [o [H1 [H2 [H3 [_ [H5 [_ [_ [H8 _]]]]]]]]]].
  exists ho, o. rewrite H1. repeat split; assumption.
Defined.

Lemma name_filter_witness :
  filteredHotels_of (Some "ritz") [anonymous_hotel; ritz]
  = filteredHotels_of (Some "RITZ") [anonymous_hotel; ritz]
  /\ exists keep,
       filteredHotels_of (Some "RITZ") [anonymous_hotel; ritz]
       = filter keep [anonymous_hotel; ritz]
       /\ (keep ritz = true <-> named_like "RITZ" ritz).
Proof.
  destruct (name_filter_ignores_case_and_keeps_matches "RITZ"
              [anonymous_hotel; ritz]
              ltac:(discriminate) ltac:(reflexivity)
              ltac:(intros h name [<- | [<- | []]] H; inversion H; reflexivity))
    as [H1 [H2 _]].
  split.
  - apply H1. reflexivity.
  - destruct H2 as [keep [Hk Hiff]].
    + exists ritz. split; [right; left; reflexivity |].
      exists "Ritz Paris". split; [reflexivity |].
      exists EmptyString, "Ritz", " Paris". split; reflexivity.
    + exists keep. split; [exact Hk | apply Hiff].
Defined.

Lemma mock_offer_id_witness :
  map Offer.id (HotelOffers.offers
                  (match fst (mockOffer ritz_env "2025-04-01" "2025-04-05" ritz initial) with
                   | Returned ho => ho
                   | Thrown _ => {| HotelOffers.hotel := ritz;
                                    HotelOffers.available := false;
                                    HotelOffers.offers := [] |}
                   end))
  = ["OFF-HLPAR266-1743500000000"].
Proof.
  destruct (mockOffer ritz_env "2025-04-01" "2025-04-05" ritz initial)
    as [[ho | e] w'] eqn:Hm; [| vm_compute in Hm; discriminate].
  cbn [fst].
  exact (proj1 (mock_offer_id_encodes_hotel_and_instant ritz_env
                  "2025-04-01" "2025-04-05" ritz ritz "HLPAR266" "HLPAR266"
                  initial initial w' w' ho ho
                  eq_refl ltac:(discriminate) eq_refl ltac:(discriminate)
                  ltac:(vm_compute; discriminate) ltac:(vm_compute; discriminate)
                  Hm Hm)).
Defined.

Lemma detail_pattern_witness :
  detail_hotelId "XYZ123" = "MOCK-HOTEL"
  /\ all_token_chars (detail_hotelId "offer off-ab12 (suite)") = true.
Proof.
  split.
  - apply (proj2 (detail_pattern_capture "XYZ123")). reflexivity.
  - apply (proj1 (detail_pattern_capture "offer off-ab12 (suite)") "ab12").
    reflexivity.
Defined.

Lemma detail_of_substitute_offer_witness :
  exists d,
    fst (getMockHotelOfferDetails ritz_env "OFF-HLPAR266-1743500000000" initial)
    = Returned (OfferDetailJson d)
    /\ Hotel.hotelId (OfferDetail.hotel d) = Some "HLPAR266-1743500000000".
Proof.
  destruct (mockOffer ritz_env "2025-04-01" "2025-04-05" ritz initial)
    as [[ho | e] w'] eqn:Hm; [| vm_compute in Hm; discriminate].
  assert (Ho : exists o, HotelOffers.offers ho = [o]
                         /\ Offer.id o = "OFF-HLPAR266-1743500000000").
  { vm_compute in Hm. inversion Hm. eexists. split; reflexivity. }
  destruct Ho as [o [Ho Hid]].
  destruct (detail_of_substitute_offer ritz_env "2025-04-01" "2025-04-05" ritz
              "HLPAR266" initial w' initial ho o
              eq_refl ltac:(discriminate) eq_refl Hm Ho) as [d [H1 [H2 _]]].
  exists d. rewrite <- Hid, H1. split; [reflexivity | exact H2].
Defined.

Lemma booking_request_witness :
  network (snd (hotelBooking ritz_env booking_example cached_world))
  = [request_options booking_endpoint "POST" None
       (Some (bookingBody_of booking_example)) (Some "tok")]
  /\ BookingBody.guests (bookingBody_of booking_example) = [john_doe].
Proof.
  destruct (booking_sends_the_callers_data_once ritz_env booking_example cached_world)
    as [[_ [Hg _]] [Hs _]].
  split; [| exact Hg].
  exact (proj1 (Hs (Some "tok") (tick cached_world) ltac:(vm_compute; reflexivity))).
Defined.

Lemma listing_text_witness :
  String_includes (formatHotelListResults (Some [ritz; anonymous_hotel])) "Ritz Paris" = true
  /\ String_includes (formatHotelListResults (Some [ritz; anonymous_hotel])) "ID: HLPAR266"
     = true
  /\ formatHotelListResults (Some []) = "No hotels found matching your criteria.".
Proof.
  destruct (listing_text_names_every_hotel (Some [ritz; anonymous_hotel])) as [_ H].
  destruct (H [ritz; anonymous_hotel] eq_refl ltac:(discriminate)) as [_ [Hn [_ Hi]]].
  split; [| split].
  - apply (Hn ritz "Ritz Paris"); [left; reflexivity | reflexivity | discriminate].
  - apply (Hi ritz "HLPAR266"); [left; reflexivity | reflexivity | discriminate].
  - apply (proj1 (listing_text_names_every_hotel (Some []))). right. reflexivity.
Defined.

Lemma degraded_booking_text_witness :
  exists c,
    fst (hotelBooking ritz_env booking_example cached_world) = Returned (BookingJson c)
    /\ String_includes (formatHotelBookingResults (Some c)) "Booking ID: BK1743500002000"
       = true.
Proof.
  destruct (degraded_booking_text ritz_env booking_example cached_world
              (snd (makeAmadeusRequest ritz_env booking_endpoint "POST" None
                      (Some (bookingBody_of booking_example)) cached_world))
              (ApiError 500 "Internal Server Error" "{ errors }")
              ltac:(vm_compute; reflexivity)) as [c [H1 H2]].
  exists c. rewrite H1, H2. split; [reflexivity | vm_compute; reflexivity].
Defined.
